(** * FMOS LoadAvgCheck manager: a shallow embedding of manage_loadavg_check.py

    The script toggles one health check around the nightly backup of an
    appliance.  It talks to a local REST service, edits the user's crontab
    and keeps a small credential file.  This development embeds the script
    as a state-and-exception monad over an explicit [world] and proves the
    properties claimed for it.

    Conventions of the embedding.
    - JSON documents are the inductive [json]; objects are finite maps with
      string keys.  JSON numbers are integers: fractional numbers are outside
      the model.
    - Python [str] values are Rocq strings whose characters are read as the
      code points 0..255.
    - A Python exception is a [Raise] outcome; [try]/[except] is the
      combinator [try_except].
    - The REST service, the crontab command, the credential file and the
      terminal are fields of [world].  The answers of the REST service are a
      function of the request for the duration of one run of the script.
    - Everything an operation does to the outside is recorded as a list of
      [event]s returned next to its result.
    - Ctrl-C is part of the world where the script waits for something
      outside: the pause of [enable_check], the prompts and the two calls of
      the crontab command.  An interrupt in the middle of an HTTP exchange
      is not: no handler of the script catches it there.
    - Console and log-file output ([log_message], [print]) has no influence on
      any result and is left out, as is the interpreter's limit on the number
      of digits of an integer literal. *)

From Stdlib Require Import ZArith String Ascii List DecimalString DecimalZ DecimalPos Lia.
From stdpp Require Import gmap strings list.

Set Warnings "-register-all".
Local Open Scope string_scope.
Local Open Scope Z_scope.

(** ** Python exceptions and outcomes *)

Inductive exn : Type :=
  | KeyboardInterrupt
  | EOFError
  | AttributeError
  | TypeError
  | ValueError
  | OSError.

(** [except Exception] catches every exception of the model but
    [KeyboardInterrupt], which derives from [BaseException] only. *)
Definition is_Exception (e : exn) : bool :=
  match e with
  | KeyboardInterrupt => false
  | _ => true
  end.

Inductive outcome (A : Type) : Type :=
  | Ok (a : A)
  | Raise (e : exn).
Arguments Ok {A} a.
Arguments Raise {A} e.

Definition obind {A B : Type} (o : outcome A) (k : A -> outcome B) : outcome B :=
  match o with
  | Ok a => k a
  | Raise e => Raise e
  end.

Notation "'let?' x ':=' o 'in' k" := (obind o (fun x => k))
  (at level 10, x name, o at level 100, k at level 200).

(** ** Python strings *)

Module Py.

(** [str.isspace] on the code points below 256. *)
Definition isspace (c : ascii) : bool :=
  match nat_of_ascii c with
  | 9 | 10 | 11 | 12 | 13 | 28 | 29 | 30 | 31 | 32 | 133 | 160 => true
  | _ => false
  end%nat.

(** The line boundaries of [str.splitlines] below 256. *)
Definition islinebreak (c : ascii) : bool :=
  match nat_of_ascii c with
  | 10 | 11 | 12 | 13 | 28 | 29 | 30 | 133 => true
  | _ => false
  end%nat.

(** The blanks [int()] strips from both ends of its argument. *)
Definition isintspace (c : ascii) : bool :=
  match nat_of_ascii c with
  | 9 | 10 | 11 | 12 | 13 | 32 | 133 | 160 => true
  | _ => false
  end%nat.

Definition is_empty (s : string) : bool :=
  match s with
  | EmptyString => true
  | String _ _ => false
  end.

Fixpoint lstrip_by (p : ascii -> bool) (s : string) : string :=
  match s with
  | EmptyString => EmptyString
  | String c t => if p c then lstrip_by p t else s
  end.

Fixpoint rstrip_by (p : ascii -> bool) (s : string) : string :=
  match s with
  | EmptyString => EmptyString
  | String c t =>
      let t' := rstrip_by p t in
      if p c && is_empty t' then EmptyString else String c t'
  end.

Definition newline : string := String (ascii_of_nat 10) EmptyString.

(** [s.strip()] *)
Definition strip (s : string) : string := rstrip_by isspace (lstrip_by isspace s).

(** [s.split()]: the maximal runs of non-blank characters. *)
Fixpoint split_from (cur s : string) : list string :=
  match s with
  | EmptyString => if is_empty cur then [] else [cur]
  | String c t =>
      if isspace c
      then (if is_empty cur then split_from EmptyString t
            else cur :: split_from EmptyString t)
      else split_from (cur ++ String c EmptyString) t
  end.

Definition split (s : string) : list string := split_from EmptyString s.

(** [s.splitlines()]: a carriage return followed by a line feed is one
    boundary; a trailing boundary opens no further line. *)
Fixpoint splitlines_from (cur s : string) : list string :=
  match s with
  | EmptyString => if is_empty cur then [] else [cur]
  | String c t =>
      if islinebreak c then
        match nat_of_ascii c, t with
        | 13%nat, String c' t' =>
            if (nat_of_ascii c' =? 10)%nat
            then cur :: splitlines_from EmptyString t'
            else cur :: splitlines_from EmptyString t
        | _, _ => cur :: splitlines_from EmptyString t
        end
      else splitlines_from (cur ++ String c EmptyString) t
  end.

Definition splitlines (s : string) : list string := splitlines_from EmptyString s.

(** [f.readlines()] of a file opened in text mode: line ends are kept and
    arrive as a line feed, whether the file has a line feed, a carriage
    return or both. *)
Fixpoint readlines_from (cur s : string) : list string :=
  match s with
  | EmptyString => if is_empty cur then [] else [cur]
  | String c t =>
      match nat_of_ascii c, t with
      | 10%nat, _ => (cur ++ newline) :: readlines_from EmptyString t
      | 13%nat, String c' t' =>
          if (nat_of_ascii c' =? 10)%nat
          then (cur ++ newline) :: readlines_from EmptyString t'
          else (cur ++ newline) :: readlines_from EmptyString t
      | 13%nat, EmptyString => (cur ++ newline) :: readlines_from EmptyString t
      | _, _ => readlines_from (cur ++ String c EmptyString) t
      end
  end.

Definition readlines (s : string) : list string := readlines_from EmptyString s.

(** [needle in hay] on strings. *)
Fixpoint contains (needle hay : string) : bool :=
  String.prefix needle hay ||
  match hay with
  | EmptyString => false
  | String _ t => contains needle t
  end.

(** [sep.join(parts)] *)
Definition join (sep : string) (parts : list string) : string := String.concat sep parts.

(** [s.replace('/', '%2F')] *)
Fixpoint replace_slash (s : string) : string :=
  match s with
  | EmptyString => EmptyString
  | String c t =>
      if (nat_of_ascii c =? 47)%nat then "%2F" ++ replace_slash t
      else String c (replace_slash t)
  end.

(** [str(z)] for an [int]. *)
Definition str_of_int (z : Z) : string := NilZero.string_of_int (Z.to_int z).

(** The digits of an integer literal; single underscores may separate
    digits. [after_digit] tells whether the previous character was a digit. *)
Definition digit_of (c : ascii) : option (Decimal.uint -> Decimal.uint) :=
  match nat_of_ascii c with
  | 48 => Some Decimal.D0 | 49 => Some Decimal.D1 | 50 => Some Decimal.D2
  | 51 => Some Decimal.D3 | 52 => Some Decimal.D4 | 53 => Some Decimal.D5
  | 54 => Some Decimal.D6 | 55 => Some Decimal.D7 | 56 => Some Decimal.D8
  | 57 => Some Decimal.D9
  | _ => None
  end%nat.

Fixpoint digits_from (after_digit : bool) (s : string) : option Decimal.uint :=
  match s with
  | EmptyString => if after_digit then Some Decimal.Nil else None
  | String c t =>
      match digit_of c with
      | Some d => option_map d (digits_from true t)
      | None =>
          if (nat_of_ascii c =? 95)%nat && after_digit
          then match t with
               | EmptyString => None
               | String c' _ =>
                   match digit_of c' with
                   | Some _ => digits_from false t
                   | None => None
                   end
               end
          else None
      end
  end.

(** [int(s)] for a string argument. *)
Definition int (s : string) : outcome Z :=
  let s := rstrip_by isintspace (lstrip_by isintspace s) in
  let parse (neg : bool) (body : string) :=
    match digits_from false body with
    | Some d => Ok (Z.of_int (if neg then Decimal.Neg d else Decimal.Pos d))
    | None => Raise ValueError
    end in
  match s with
  | String c t =>
      if (nat_of_ascii c =? 45)%nat then parse true t
      else if (nat_of_ascii c =? 43)%nat then parse false t
      else parse false s
  | EmptyString => Raise ValueError
  end.

End Py.

(** ** JSON values and the Python operations the script applies to them *)

Inductive json : Type :=
  | JNull
  | JBool (b : bool)
  | JInt (z : Z)
  | JStr (s : string)
  | JList (l : list json)
  | JObj (m : gmap string json).

Module PyVal.

(** Truth value of a decoded JSON document ([if not x]). *)
Definition truthy (j : json) : bool :=
  match j with
  | JNull => false
  | JBool b => b
  | JInt z => negb (z =? 0)
  | JStr s => negb (Py.is_empty s)
  | JList l => match l with [] => false | _ :: _ => true end
  | JObj m => negb (bool_decide (m = ∅))
  end.

(** [d.get(key, dflt)]: only a dict has the method. *)
Definition get (d : json) (key : string) (dflt : json) : outcome json :=
  match d with
  | JObj m => Ok (default dflt (m !! key))
  | _ => Raise AttributeError
  end.

(** [x == j] for a string [x]. *)
Definition str_eq (x : string) (j : json) : bool :=
  match j with
  | JStr s => String.eqb x s
  | _ => false
  end.

(** [x in c] for a string [x]: membership in a list, substring of a string,
    key of a dict; the other values are not iterable. *)
Definition contains (x : string) (c : json) : outcome bool :=
  match c with
  | JList l => Ok (existsb (str_eq x) l)
  | JStr s => Ok (Py.contains x s)
  | JObj m => Ok (bool_decide (is_Some (m !! x)))
  | JNull | JBool _ | JInt _ => Raise TypeError
  end.

(** [c.append(x)] *)
Definition append (c : json) (x : json) : outcome json :=
  match c with
  | JList l => Ok (JList (l ++ [x]))
  | _ => Raise AttributeError
  end.

(** [l.remove(x)] on a list: the first element equal to [x] goes. *)
Fixpoint remove_first (x : string) (l : list json) : option (list json) :=
  match l with
  | [] => None
  | j :: t => if str_eq x j then Some t else option_map (cons j) (remove_first x t)
  end.

(** [c.remove(x)] *)
Definition remove (c : json) (x : string) : outcome json :=
  match c with
  | JList l =>
      match remove_first x l with
      | Some l' => Ok (JList l')
      | None => Raise ValueError
      end
  | _ => Raise AttributeError
  end.

(** [d.setdefault(key, {})[item] = v], returning the updated [d]. *)
Definition setdefault_setitem (d : json) (key item : string) (v : json) : outcome json :=
  match d with
  | JObj m =>
      match default (JObj ∅) (m !! key) with
      | JObj h => Ok (JObj (<[key := JObj (<[item := v]> h)]> m))
      | _ => Raise TypeError
      end
  | _ => Raise AttributeError
  end.

(** [d.setdefault(key, {}).pop(item, None)], returning the updated [d]. *)
Definition setdefault_pop (d : json) (key item : string) : outcome json :=
  match d with
  | JObj m =>
      match default (JObj ∅) (m !! key) with
      | JObj h => Ok (JObj (<[key := JObj (delete item h)]> m))
      | JList _ => Raise TypeError
      | _ => Raise AttributeError
      end
  | _ => Raise AttributeError
  end.

(** [v - k] for an integer [k]: [bool] is a subtype of [int]. *)
Definition sub (v : json) (k : Z) : outcome Z :=
  match v with
  | JInt z => Ok (z - k)
  | JBool b => Ok (Z.b2z b - k)
  | _ => Raise TypeError
  end.

(** [z != v] for an integer [z]. *)
Definition int_ne (z : Z) (v : json) : bool :=
  match v with
  | JInt z' => negb (z =? z')
  | JBool b => negb (z =? Z.b2z b)
  | _ => true
  end.

(** [f"{v}"]; [repr] renders lists and dicts. *)
Definition str_of (repr : json -> string) (v : json) : string :=
  match v with
  | JNull => "None"
  | JBool true => "True"
  | JBool false => "False"
  | JInt z => Py.str_of_int z
  | JStr s => s
  | JList _ | JObj _ => repr v
  end.

(** [f"{v:02d}"]: only the exception matters, the text is printed. *)
Definition format_02d (v : json) : outcome unit :=
  match v with
  | JInt _ | JBool _ => Ok tt
  | JStr _ => Raise ValueError
  | _ => Raise TypeError
  end.

End PyVal.

(** ** The world outside the script *)

(** An HTTP exchange: [NoResponse] is any exception of the [requests]
    library (time-out, refused connection); [body] is what [response.json()]
    decodes, [None] when the body is not JSON. *)
Inductive response : Type :=
  | NoResponse
  | Response (ok : bool) (text : string) (body : option json).

Record rest_service : Type := RestService {
  on_post : string -> option string -> response;
  on_get : string -> response;
  on_put : string -> json -> response
}.

(** How [crontab -] goes: the table is installed, the command turns it
    down with an error code, the call of [subprocess.run] raises an error, or
    Ctrl-C arrives while the command runs. *)
Inductive install_mode : Type :=
  | Installs
  | Rejects
  | InstallFails
  | InstallInterrupted.

(** The [crontab] command. [table] is the installed table ([None]: the user
    has none and [crontab -l] exits with an error). [list_fails]: the call
    of [subprocess.run] for [crontab -l] raises; [list_interrupted] tells
    what it raises then: [KeyboardInterrupt], which [subprocess.run] passes
    on when Ctrl-C arrives while the command runs, or an error of the call
    itself (no such command, time-out). *)
Record crontab_dev : Type := CrontabDev {
  table : option string;
  list_fails : bool;
  install : install_mode;
  list_interrupted : bool
}.

Inductive file_state : Type :=
  | NoFile
  | Unreadable
  | FileText (text : string).

(** What the terminal delivers to one [input()] or [getpass()] call. *)
Inductive keyboard : Type :=
  | Typed (line : string)
  | EndOfInput
  | CtrlC.

Record world : Type := World {
  environ : gmap string string;
  service : rest_service;
  cron : crontab_dev;
  creds_file : file_state;
  creds_writable : bool;
  tty : list keyboard;
  sleep_interrupted : bool
}.

Inductive event : Type :=
  | HttpPost (url : string) (data : option string) (r : response)
  | HttpGet (url : string) (r : response)
  | HttpPut (url : string) (payload : json) (r : response)
  | CrontabList
  | CrontabInstall (input : string)
  | Sleep (seconds : Z)
  | CredsWrite (text : string)
  | CredsUnlink.

Definition with_cron (c : crontab_dev) (w : world) : world :=
  World (environ w) (service w) c (creds_file w) (creds_writable w) (tty w) (sleep_interrupted w).
Definition with_creds (f : file_state) (w : world) : world :=
  World (environ w) (service w) (cron w) f (creds_writable w) (tty w) (sleep_interrupted w).
Definition with_tty (k : list keyboard) (w : world) : world :=
  World (environ w) (service w) (cron w) (creds_file w) (creds_writable w) k (sleep_interrupted w).

(** ** The monad of the script: state, exceptions and an event log *)

Record run (A : Type) : Type := Run {
  result : outcome A;
  after : world;
  events : list event
}.
Arguments Run {A} result after events.
Arguments result {A} r.
Arguments after {A} r.
Arguments events {A} r.

Definition M (A : Type) : Type := world -> run A.

Definition ret {A : Type} (a : A) : M A := fun w => Run (Ok a) w [].

Definition raise {A : Type} (e : exn) : M A := fun w => Run (Raise e) w [].

Definition lift {A : Type} (o : outcome A) : M A := fun w => Run o w [].

Definition bind {A B : Type} (m : M A) (k : A -> M B) : M B := fun w =>
  let r := m w in
  match result r with
  | Ok a => let r' := k a (after r) in Run (result r') (after r') (events r ++ events r')
  | Raise e => Run (Raise e) (after r) (events r)
  end.

Notation "'let*' x ':=' m 'in' k" := (bind m (fun x => k))
  (at level 10, x name, m at level 100, k at level 200).
Notation "'let*' ' p ':=' m 'in' k" := (bind m (fun x => match x with p => k end))
  (at level 10, p pattern, m at level 100, k at level 200).
Notation "m ';;' k" := (bind m (fun _ => k))
  (at level 100, k at level 200, right associativity).

(** [try: body / except <catch>: handler] *)
Definition try_except {A : Type} (catch : exn -> bool) (body : M A) (handler : M A) : M A :=
  fun w =>
  let r := body w in
  match result r with
  | Ok _ => r
  | Raise e =>
      if catch e
      then let r' := handler (after r) in Run (result r') (after r') (events r ++ events r')
      else r
  end.

Definition emit (e : event) : M unit := fun w => Run (Ok tt) w [e].
Definition get_world : M world := fun w => Run (Ok w) w [].
Definition put_world (w' : world) : M unit := fun _ => Run (Ok tt) w' [].

(** [os.environ.get(name)] *)
Definition os_environ_get (name : string) : M (option string) :=
  let* w := get_world in ret (environ w !! name).

(** [self.session.post], [.get], [.put]: a library exception is an [OSError]. *)
Definition answered (r : response) : M (bool * string * option json) :=
  match r with
  | NoResponse => raise OSError
  | Response ok text body => ret (ok, text, body)
  end.

Definition session_post (url : string) (data : option string) : M (bool * string * option json) :=
  let* w := get_world in
  let r := on_post (service w) url data in
  emit (HttpPost url data r);; answered r.

Definition session_get (url : string) : M (bool * string * option json) :=
  let* w := get_world in
  let r := on_get (service w) url in
  emit (HttpGet url r);; answered r.

Definition session_put (url : string) (payload : json) : M (bool * string * option json) :=
  let* w := get_world in
  let r := on_put (service w) url payload in
  emit (HttpPut url payload r);; answered r.

(** [response.json()] *)
Definition response_json (body : option json) : M json :=
  match body with
  | Some j => ret j
  | None => raise ValueError
  end.

(** [subprocess.run(['crontab', '-l'], capture_output=True, ...)]: the
    return code and the captured standard output, or the exception of a call
    that fails or is interrupted from the keyboard. *)
Definition crontab_l : M (Z * string) :=
  emit CrontabList;;
  let* w := get_world in
  if list_fails (cron w)
  then raise (if list_interrupted (cron w) then KeyboardInterrupt else OSError)
  else match table (cron w) with
       | Some t => ret (0, t)
       | None => ret (1, "")
       end.

(** [subprocess.run(['crontab', '-'], input=...)]: the return code is not
    looked at, so a rejected table passes silently; a call that fails or is
    interrupted from the keyboard raises. *)
Definition crontab_install (input : string) : M unit :=
  emit (CrontabInstall input);;
  let* w := get_world in
  match install (cron w) with
  | Installs =>
      put_world
        (with_cron
           (CrontabDev (Some input) (list_fails (cron w)) Installs (list_interrupted (cron w)))
           w)
  | Rejects => ret tt
  | InstallFails => raise OSError
  | InstallInterrupted => raise KeyboardInterrupt
  end.

(** [time.sleep(seconds)] *)
Definition time_sleep (seconds : Z) : M unit :=
  emit (Sleep seconds);;
  let* w := get_world in
  if sleep_interrupted w then raise KeyboardInterrupt else ret tt.

(** [input(prompt)] and [getpass(prompt)] *)
Definition read_line : M string :=
  let* w := get_world in
  match tty w with
  | [] => raise EOFError
  | k :: rest =>
      put_world (with_tty rest w);;
      match k with
      | Typed line => ret line
      | EndOfInput => raise EOFError
      | CtrlC => raise KeyboardInterrupt
      end
  end.

(** [self.creds_file.exists()] *)
Definition creds_exists : M bool :=
  let* w := get_world in
  ret (match creds_file w with NoFile => false | _ => true end).

(** [open(self.creds_file, 'r')] followed by [f.readlines()] *)
Definition creds_readlines : M (list string) :=
  let* w := get_world in
  match creds_file w with
  | FileText t => ret (Py.readlines t)
  | NoFile | Unreadable => raise OSError
  end.

(** [open(self.creds_file, 'w')], [f.write(text)], [os.chmod(..., 0o644)] *)
Definition creds_write (text : string) : M unit :=
  let* w := get_world in
  if creds_writable w
  then emit (CredsWrite text);; put_world (with_creds (FileText text) w)
  else raise OSError.

(** [self.creds_file.unlink()] *)
Definition creds_unlink : M unit :=
  emit CredsUnlink;;
  let* w := get_world in put_world (with_creds NoFile w).

(** ** The manager *)

Definition check_name : string := "fmos.health.checks.basic.LoadAvgCheck".
Definition api_base_url : string := "https://localhost:55555/api".

(** The fields of [FMOSLoadAvgCheckManager] the operations read, with the
    interpreter path [sys.executable]. [admin_user] is what
    [_detect_admin_user] found when the instance was built. *)
Record manager : Type := Manager {
  script_path : string;
  sys_executable : string;
  no_log : bool;
  no_wait : bool;
  admin_user : string
}.

(** The dict [get_backup_schedule] returns. *)
Record backup_schedule : Type := BackupSchedule {
  hour : json;
  minute : json;
  pre_hour : json;
  pre_minute : json;
  schedule : json
}.

Definition login_url : string := api_base_url ++ "/login".
Definition apply_url : string := api_base_url ++ "/config/apply".
Definition config_url (category : string) : string :=
  api_base_url ++ "/config/values/" ++ Py.replace_slash category.

(** [username and password]: both present and non-empty. *)
Definition usable (username password : option string) : option (string * string) :=
  match username, password with
  | Some u, Some p =>
      if negb (Py.is_empty u) && negb (Py.is_empty p) then Some (u, p) else None
  | _, _ => None
  end.

(** Lines 308-310 and 346-348: an empty answer stands for a configuration
    with an empty ['health'] mapping. *)
Definition current_config_of (fetched : json) : json :=
  if PyVal.truthy fetched then fetched else JObj {[ "health" := JObj ∅ ]}.

(** Lines 313-317: the payload [disable_check] sends back, from the one it
    fetched. *)
Definition disable_payload (fetched : json) : outcome json :=
  let current_config := current_config_of fetched in
  let? health := PyVal.get current_config "health" (JObj ∅) in
  let? ignore_checks := PyVal.get health "ignore_checks" (JList []) in
  let? present := PyVal.contains check_name ignore_checks in
  let? ignore_checks :=
    (if negb present then PyVal.append ignore_checks (JStr check_name)
     else Ok ignore_checks) in
  PyVal.setdefault_setitem current_config "health" "ignore_checks" ignore_checks.

(** Lines 351-359: the payload [enable_check] sends back. *)
Definition enable_payload (fetched : json) : outcome json :=
  let current_config := current_config_of fetched in
  let? health := PyVal.get current_config "health" (JObj ∅) in
  let? ignore_checks := PyVal.get health "ignore_checks" (JList []) in
  let? present := PyVal.contains check_name ignore_checks in
  let? ignore_checks :=
    (if present then PyVal.remove ignore_checks check_name
     else Ok ignore_checks) in
  if PyVal.truthy ignore_checks
  then PyVal.setdefault_setitem current_config "health" "ignore_checks" ignore_checks
  else PyVal.setdefault_pop current_config "health" "ignore_checks".

(** Lines 263-293: the schedule computed from the fetched backup
    configuration. *)
Definition schedule_of (backup_config : json) : outcome backup_schedule :=
  if negb (PyVal.truthy backup_config)
  then Ok (BackupSchedule (JInt 23) (JInt 48) (JInt 23) (JInt 43) (JStr "daily"))
  else
    let? auto_backup := PyVal.get backup_config "auto_backup" (JObj ∅) in
    let? hour := PyVal.get auto_backup "hour" (JInt 23) in
    let? minute := PyVal.get auto_backup "minute" (JInt 48) in
    let? schedule := PyVal.get auto_backup "schedule" (JStr "daily") in
    let? pre_minute := PyVal.sub minute 5 in
    if pre_minute <? 0 then
      let pre_minute := 60 + pre_minute in
      let? pre_hour := PyVal.sub hour 1 in
      let pre_hour := if pre_hour <? 0 then 23 else pre_hour in
      Ok (BackupSchedule hour minute (JInt pre_hour) (JInt pre_minute) schedule)
    else
      Ok (BackupSchedule hour minute hour (JInt pre_minute) schedule).

(** The predicate that identifies the tool's own crontab line. *)
Definition is_disable_entry (m : manager) (line : string) : bool :=
  Py.contains (script_path m) line && Py.contains "disable" line.

(** The comprehension of [setup_cronjob] and [cleanup] that drops the
    tool's own lines. *)
Definition other_entries (m : manager) (lines : list string) : list string :=
  List.filter
    (fun line => negb (Py.contains (script_path m) line) || negb (Py.contains "disable" line))
    lines.

Definition post_backup_config (cmd : string) : json :=
  let run_command := JObj {[ "run-command" := JList [JObj {[ "command" := JStr cmd ]}] ]} in
  JObj {[ "post_backup" := JObj (<["failure" := run_command]> {[ "success" := run_command ]}) ]}.

Inductive command : Type :=
  | CmdDisable
  | CmdEnable
  | CmdSetup
  | CmdCleanup
  | CmdStatus
  | CmdCredentials.

(** One start of the script: the parsed command line ([argparse] admits the
    six commands only), the resolved path of the script, the interpreter and
    the detected administrator. *)
Record invocation : Type := Invocation {
  inv_command : command;
  inv_no_log : bool;
  inv_no_wait : bool;
  inv_script_path : string;
  inv_executable : string;
  inv_admin_user : string
}.

Definition with_no_wait (m : manager) : manager :=
  Manager (script_path m) (sys_executable m) (no_log m) true (admin_user m).

(** The [try]/[except] of [main] around the dispatched command. *)
Definition exit_status (o : outcome bool) : Z :=
  match o with
  | Ok success => if success then 0 else 1
  | Raise KeyboardInterrupt => 130
  | Raise _ => 1
  end.

Section Manager.

(** Library functions the script calls and the model takes as given:
    [b64encode s] is [base64.b64encode(s.encode()).decode()], [b64decode s]
    is [base64.b64decode(s).decode()] with [None] when either step raises,
    [py_repr] is [repr] on lists and dicts. *)
Variable b64encode : string -> string.
Variable b64decode : string -> option string.
Variable py_repr : json -> string.

Definition store_credentials (username password : string) : M bool :=
  let encoded_user := b64encode username in
  let encoded_pass := b64encode password in
  try_except is_Exception
    (creds_write (encoded_user ++ Py.newline ++ encoded_pass ++ Py.newline);;
     ret true)
    (ret false).

Definition decode_line (line : string) : M string :=
  match b64decode (Py.strip line) with
  | Some s => ret s
  | None => raise ValueError
  end.

Definition get_stored_credentials : M (option string * option string) :=
  let* present := creds_exists in
  if negb present then ret (None, None)
  else
    try_except is_Exception
      (let* lines := creds_readlines in
       match lines with
       | line0 :: line1 :: _ =>
           let* username := decode_line line0 in
           let* password := decode_line line1 in
           ret (Some username, Some password)
       | _ => ret (None, None)
       end)
      (ret (None, None)).

Definition login_request (username password : string) : M bool :=
  let* '(ok, text, _) :=
    session_post login_url (Some ("username=" ++ username ++ "&password=" ++ password)) in
  ret (ok && Py.contains "username" text).

Definition test_login (username password : string) : M bool :=
  try_except is_Exception (login_request username password) (ret false).

Definition prompt_credentials (m : manager) : M bool :=
  let* typed := read_line in
  let username := if Py.is_empty (Py.strip typed) then admin_user m else Py.strip typed in
  let* password := read_line in
  let* password2 := read_line in
  if negb (String.eqb password password2) then ret false
  else if Py.is_empty password then ret false
  else
    let* valid := test_login username password in
    if valid then store_credentials username password else ret false.

Definition api_login : M bool :=
  let* username := os_environ_get "FMOS_API_USER" in
  let* password := os_environ_get "FMOS_API_PASS" in
  let* found :=
    (match usable username password with
     | Some c => ret (Some c)
     | None =>
         let* '(username, password) := get_stored_credentials in
         ret (usable username password)
     end) in
  match found with
  | None => ret true
  | Some (username, password) =>
      try_except is_Exception (login_request username password) (ret false)
  end.

Definition api_config_get (category : string) : M json :=
  try_except is_Exception
    (let* '(ok, _, body) := session_get (config_url category) in
     if ok then response_json body else ret (JObj ∅))
    (ret (JObj ∅)).

Definition api_config_put (category : string) (data : json) : M bool :=
  try_except is_Exception
    (let* '(ok, _, _) := session_put (config_url category) data in ret ok)
    (ret false).

Definition api_config_apply : M bool :=
  try_except is_Exception
    (let* '(ok, _, _) := session_post apply_url None in ret ok)
    (ret false).

Definition get_backup_schedule : M backup_schedule :=
  let* backup_config := api_config_get "os/backup/auto-backup" in
  lift (schedule_of backup_config).

Definition get_current_cron_entry (m : manager) : M (option string) :=
  try_except (fun _ => true)
    (let* '(returncode, stdout) := crontab_l in
     if returncode =? 0
     then ret (option_map Py.strip (List.find (is_disable_entry m) (Py.splitlines stdout)))
     else ret None)
    (ret None).

Definition cron_entry (m : manager) (s : backup_schedule) : string :=
  if no_log m
  then PyVal.str_of py_repr (pre_minute s) ++ " " ++ PyVal.str_of py_repr (pre_hour s)
       ++ " * * * NO_LOG=1 " ++ sys_executable m ++ " " ++ script_path m
       ++ " disable >/dev/null 2>&1"
  else PyVal.str_of py_repr (pre_minute s) ++ " " ++ PyVal.str_of py_repr (pre_hour s)
       ++ " * * * " ++ sys_executable m ++ " " ++ script_path m
       ++ " disable >/dev/null 2>&1".

Definition setup_cronjob (m : manager) : M bool :=
  let* schedule := get_backup_schedule in
  let cron_entry := cron_entry m schedule in
  try_except is_Exception
    (let* '(returncode, stdout) := crontab_l in
     let existing_cron := if returncode =? 0 then stdout else "" in
     let new_cron_lines := (other_entries m (Py.splitlines existing_cron) ++ [cron_entry])%list in
     crontab_install (Py.join Py.newline new_cron_lines ++ Py.newline);;
     lift (PyVal.format_02d (minute schedule));;
     lift (PyVal.format_02d (pre_minute schedule));;
     ret true)
    (ret false).

Definition check_and_update_cronjob (m : manager) : M unit :=
  let* schedule := get_backup_schedule in
  let* current_cron := get_current_cron_entry m in
  match current_cron with
  | None => ret tt
  | Some current_cron =>
      if Py.is_empty current_cron then ret tt
      else
        let parts := Py.split current_cron in
        if (5 <=? length parts)%nat then
          let* current_minute := lift (Py.int (nth 0 parts "")) in
          let* current_hour := lift (Py.int (nth 1 parts "")) in
          if PyVal.int_ne current_minute (pre_minute schedule)
             || PyVal.int_ne current_hour (pre_hour schedule)
          then
            lift (PyVal.format_02d (pre_minute schedule));;
            setup_cronjob m;;
            ret tt
          else ret tt
        else ret tt
  end.

Definition disable_check (m : manager) : M bool :=
  check_and_update_cronjob m;;
  let* logged_in := api_login in
  if negb logged_in then ret false
  else
    let* current_config := api_config_get "os/health" in
    let* current_config := lift (disable_payload current_config) in
    let* put_ok := api_config_put "os/health" current_config in
    if put_ok then api_config_apply else ret false.

Definition enable_check (m : manager) : M bool :=
  (if no_wait m then ret tt else time_sleep 900);;
  check_and_update_cronjob m;;
  let* logged_in := api_login in
  if negb logged_in then ret false
  else
    let* current_config := api_config_get "os/health" in
    let* current_config := lift (enable_payload current_config) in
    let* put_ok := api_config_put "os/health" current_config in
    if put_ok then api_config_apply else ret false.

Definition setup_post_backup (m : manager) : M bool :=
  let post_backup_cmd :=
    if no_log m
    then "NO_LOG=1 " ++ sys_executable m ++ " " ++ script_path m ++ " enable"
    else sys_executable m ++ " " ++ script_path m ++ " enable" in
  let* logged_in := api_login in
  if negb logged_in then ret false
  else
    let* put_ok := api_config_put "os/backup/post-backup" (post_backup_config post_backup_cmd) in
    if put_ok then api_config_apply else ret false.

(** Lines 525-549 of [cleanup]: the crontab is written back without the
    tool's own lines. *)
Definition remove_cronjob (m : manager) : M unit :=
  try_except is_Exception
    (let* '(returncode, stdout) := crontab_l in
     if returncode =? 0 then
       let new_cron_lines := other_entries m (Py.splitlines stdout) in
       crontab_install (Py.join Py.newline new_cron_lines ++ Py.newline)
     else ret tt)
    (ret tt).

(** The payload [cleanup] sends to clear the post-backup configuration. *)
Definition no_post_backup : json := JObj {[ "post_backup" := JObj ∅ ]}.

(** Lines 551-555 of [cleanup]: the post-backup configuration is cleared;
    the value [api_config_put] returns is not looked at. *)
Definition clear_post_backup : M unit :=
  let* logged_in := api_login in
  if logged_in then
    api_config_put "os/backup/post-backup" no_post_backup;;
    api_config_apply;;
    ret tt
  else ret tt.

(** Lines 557-560 of [cleanup]. *)
Definition remove_credentials : M unit :=
  let* present := creds_exists in
  if present then creds_unlink else ret tt.

Definition cleanup (m : manager) : M unit :=
  remove_cronjob m;;
  clear_post_backup;;
  remove_credentials;;
  enable_check (with_no_wait m);;
  ret tt.

(** The comparison of the installed crontab line with the schedule that
    [show_status] prints. *)
Definition report_cron_entry (m : manager) (schedule : backup_schedule) : M unit :=
  let* current_cron := get_current_cron_entry m in
  match current_cron with
  | None => ret tt
  | Some current_cron =>
      if Py.is_empty current_cron then ret tt
      else
        let parts := Py.split current_cron in
        if (5 <=? length parts)%nat then
          let* current_minute := lift (Py.int (nth 0 parts "")) in
          let* current_hour := lift (Py.int (nth 1 parts "")) in
          if PyVal.int_ne current_minute (pre_minute schedule)
             || PyVal.int_ne current_hour (pre_hour schedule)
          then
            lift (PyVal.format_02d (pre_minute schedule));;
            lift (PyVal.format_02d (minute schedule))
          else ret tt
        else ret tt
  end.

Definition show_status (m : manager) : M unit :=
  let* logged_in := api_login in
  (if logged_in then
     let* current_health := api_config_get "os/health" in
     let* health := lift (PyVal.get current_health "health" (JObj ∅)) in
     let* ignored_checks := lift (PyVal.get health "ignore_checks" (JList [])) in
     let* _ := lift (PyVal.contains check_name ignored_checks) in
     ret tt
   else ret tt);;
  let* present := creds_exists in
  (if present then get_stored_credentials;; ret tt else ret tt);;
  let* schedule := get_backup_schedule in
  lift (PyVal.format_02d (hour schedule));;
  lift (PyVal.format_02d (minute schedule));;
  report_cron_entry m schedule;;
  let* post_backup := api_config_get "os/backup/post-backup" in
  let* hooks := lift (PyVal.get post_backup "post_backup" (JObj ∅)) in
  let* success := lift (PyVal.get hooks "success" (JObj ∅)) in
  let* _ := lift (PyVal.get success "run-command" JNull) in
  ret tt.

Definition setup (m : manager) : M bool :=
  let* present := creds_exists in
  let* ready := (if negb present then prompt_credentials m else ret true) in
  if negb ready then ret false
  else
    let* hook_ok := setup_post_backup m in
    if negb hook_ok then ret false
    else
      let* cron_ok := setup_cronjob m in
      if negb cron_ok then ret false
      else show_status m;; ret true.

(** [FMOSLoadAvgCheckManager.__init__] *)
Definition new_manager (i : invocation) : M manager :=
  let* env_no_log := os_environ_get "NO_LOG" in
  let* env_no_wait := os_environ_get "NO_WAIT" in
  ret (Manager (inv_script_path i) (inv_executable i)
         (inv_no_log i || String.eqb (default "0" env_no_log) "1")
         (inv_no_wait i || String.eqb (default "0" env_no_wait) "1")
         (inv_admin_user i)).

(** The command dispatch of [main]: the value bound to [success]. *)
Definition dispatch (c : command) (manager : manager) : M bool :=
  match c with
  | CmdDisable => disable_check manager
  | CmdEnable => enable_check manager
  | CmdSetup => setup manager
  | CmdCleanup => cleanup manager;; ret true
  | CmdStatus => show_status manager;; ret true
  | CmdCredentials => prompt_credentials manager
  end.

(** [main]: the run of the dispatched command and the exit code of the
    process. *)
Definition main_run (i : invocation) : M bool :=
  let* manager := new_manager i in
  dispatch (inv_command i) manager.

Definition main (i : invocation) (w : world) : Z := exit_status (result (main_run i w)).


(** ** Observations used in the statements *)

(** What [api_config_put] and [api_config_apply] return for an exchange. *)
Definition response_ok (r : response) : bool :=
  match r with
  | Response ok _ _ => ok
  | NoResponse => false
  end.

(** The document [api_config_get] hands to its caller: the decoded body of
    a successful answer, the empty mapping in every other case. *)
Definition fetched (w : world) (category : string) : json :=
  match on_get (service w) (config_url category) with
  | Response true _ (Some j) => j
  | _ => JObj ∅
  end.

Definition obj_lookup (j : json) (key : string) : option json :=
  match j with
  | JObj m => m !! key
  | _ => None
  end.

(** The mapping under ['health'], empty when there is none. *)
Definition health_of (payload : json) : json :=
  default (JObj ∅) (obj_lookup payload "health").

(** The ignore list of a health payload, empty when the payload has none. *)
Definition ignore_checks_of (payload : json) : list json :=
  match obj_lookup (health_of payload) "ignore_checks" with
  | Some (JList l) => l
  | _ => []
  end.

(** How often the check identifier occurs in a list. *)
Definition occurrences (l : list json) : nat :=
  length (List.filter (PyVal.str_eq check_name) l).

(** A health payload of the shape the data model gives it: nothing, or a
    mapping whose ['health'] entry, if any, is a mapping whose
    ['ignore_checks'] entry, if any, is a list. *)
Definition health_wf (payload : json) : Prop :=
  PyVal.truthy payload = false \/
  exists m, payload = JObj m /\
    (m !! "health" = None \/
     exists h, m !! "health" = Some (JObj h) /\
       (h !! "ignore_checks" = None \/ exists l, h !! "ignore_checks" = Some (JList l))).

(** The list with the first occurrence of the identifier taken out. *)
Definition without_check (l : list json) : list json :=
  default l (PyVal.remove_first check_name l).

(** The ignore list [disable_check] writes for a fetched list [l]. *)
Definition ignore_after_disable (l : list json) : list json :=
  if existsb (PyVal.str_eq check_name) l then l else (l ++ [JStr check_name])%list.

(** The ['health'] mapping [enable_check] writes for a fetched mapping [h]
    with ignore list [l]. *)
Definition health_after_enable (h : gmap string json) (l : list json) : gmap string json :=
  match without_check l with
  | [] => delete "ignore_checks" h
  | _ :: _ => <["ignore_checks" := JList (without_check l)]> h
  end.

Definition is_install (e : event) : bool :=
  match e with
  | CrontabInstall _ => true
  | _ => false
  end.

Definition is_apply (e : event) : bool :=
  match e with
  | HttpPost url None _ => String.eqb url apply_url
  | _ => false
  end.

(** The PUT-then-APPLY discipline on a log. Every PUT to a category in
    [always] is directly followed by an APPLY; every other PUT is directly
    followed by an APPLY exactly when it succeeded. *)
Fixpoint paired (always : string -> bool) (evs : list event) : bool :=
  match evs with
  | [] => true
  | HttpPut url _ r :: rest =>
      let applied := match rest with e :: _ => is_apply e | [] => false end in
      (if always url then applied else Bool.eqb applied (response_ok r))
      && paired always rest
  | _ :: rest => paired always rest
  end.

Definition short_circuit : string -> bool := fun _ => false.

Fixpoint all_chars (p : ascii -> bool) (s : string) : bool :=
  match s with
  | EmptyString => true
  | String c t => p c && all_chars p t
  end.

(** A string without line boundary. *)
Definition single_line (s : string) : bool :=
  all_chars (fun c => negb (Py.islinebreak c)) s.

(** A string without blank. *)
Definition no_blank (s : string) : bool :=
  all_chars (fun c => negb (Py.isspace c)) s.

(** A document without the ['ignore_checks'] entry of its ['health']
    mapping: two documents that are identical except for that entry have the
    same image. *)
Definition sans_ignore_checks (j : json) : json :=
  match j with
  | JObj m =>
      match m !! "health" with
      | Some (JObj h) => JObj (<["health" := JObj (delete "ignore_checks" h)]> m)
      | _ => j
      end
  | _ => j
  end.

(** ** Sample inputs *)

Definition sample_manager : manager :=
  Manager "/home/admin/manage_loadavg_check.py" "/usr/bin/python3" false true "admin".

Definition health_payload (l : list json) : json :=
  JObj {[ "health" := JObj {[ "ignore_checks" := JList l ]} ]}.

Definition backup_payload (h mi : Z) : json :=
  JObj {[ "auto_backup" := JObj (<["hour" := JInt h]> {[ "minute" := JInt mi ]}) ]}.

(** A service that accepts every login and every write and serves the given
    health and backup documents; [put_ok] is the status of a PUT. *)
Definition sample_service (health backup : json) (put_ok : bool) : rest_service :=
  RestService
    (fun _ _ => Response true "{username: admin}" None)
    (fun url =>
       if String.eqb url (config_url "os/health") then Response true "" (Some health)
       else if String.eqb url (config_url "os/backup/auto-backup") then Response true "" (Some backup)
       else Response false "" None)
    (fun _ _ => Response put_ok "" None).

Definition sample_world (health backup : json) (put_ok : bool) (crontab : option string) : world :=
  World ∅ (sample_service health backup put_ok) (CrontabDev crontab false Installs false)
        NoFile true [] false.

Definition sample_b64decode (s : string) : option string :=
  if String.eqb s "YWRtaW4=" then Some "admin"
  else if String.eqb s "czNjcmV0" then Some "s3cret"
  else None.

Definition sample_b64encode (s : string) : string :=
  if String.eqb s "admin" then "YWRtaW4=" else "czNjcmV0".

Definition sample_repr (j : json) : string := "[]".

(** The pair [get_stored_credentials] returns, by the state of the file. *)
Definition stored_credentials (f : file_state) : option string * option string :=
  match f with
  | FileText text =>
      match Py.readlines text with
      | line0 :: line1 :: _ =>
          match b64decode (Py.strip line0), b64decode (Py.strip line1) with
          | Some username, Some password => (Some username, Some password)
          | _, _ => (None, None)
          end
      | _ => (None, None)
      end
  | NoFile | Unreadable => (None, None)
  end.

Definition is_login (e : event) : bool :=
  match e with
  | HttpPost url (Some _) _ => String.eqb url login_url
  | _ => false
  end.

(** The entry [get_current_cron_entry] finds in a crontab. *)
Definition current_entry (m : manager) (c : crontab_dev) : option string :=
  if list_fails c then None
  else match table c with
       | Some t => option_map Py.strip (List.find (is_disable_entry m) (Py.splitlines t))
       | None => None
       end.

(** The table [setup_cronjob] hands to [crontab -] for a schedule [s]. *)
Definition rewritten_table (m : manager) (s : backup_schedule) (c : crontab_dev) : string :=
  Py.join Py.newline
    (other_entries m (Py.splitlines (default "" (table c))) ++ [cron_entry m s])%list
  ++ Py.newline.

Definition is_put (e : event) : bool :=
  match e with
  | HttpPut _ _ _ => true
  | _ => false
  end.

(** A log without PUT and without APPLY. *)
Definition no_writes (evs : list event) : bool :=
  forallb (fun e => negb (is_put e || is_apply e)) evs.

Definition installs (evs : list event) : list event := List.filter is_install evs.

(** The steps [disable_check] and [enable_check] share after the crontab
    check, for the payload function [f] of either. *)
Definition toggle (f : json -> outcome json) : M bool :=
  let* logged_in := api_login in
  if negb logged_in then ret false
  else
    let* current_config := api_config_get "os/health" in
    let* current_config := lift (f current_config) in
    let* put_ok := api_config_put "os/health" current_config in
    if put_ok then api_config_apply else ret false.

(** The log of [api_config_put(...) and api_config_apply()]. *)
Definition put_and_apply (w : world) (category : string) (payload : json) : list event :=
  let r := on_put (service w) (config_url category) payload in
  HttpPut (config_url category) payload r ::
  (if response_ok r then [HttpPost apply_url None (on_post (service w) apply_url None)]
   else []).

(** A health payload that lists the check identifier twice. *)
Definition dup_payload : json := health_payload [JStr check_name; JStr check_name].

(** The category [cleanup] clears without looking at the outcome of the PUT. *)
Definition cleared_category (url : string) : bool :=
  String.eqb url (config_url "os/backup/post-backup").

(** A world whose service turns every PUT down, with the given crontab. *)
Definition refusing_world (crontab : option string) : world :=
  sample_world (JObj ∅) (JObj ∅) false crontab.

Definition digit_chars : list ascii :=
  ["0"; "1"; "2"; "3"; "4"; "5"; "6"; "7"; "8"; "9"]%char.

(** What follows the minute and hour fields in the line [setup_cronjob]
    builds. *)
Definition entry_command (m : manager) : string :=
  (if no_log m then "* * * NO_LOG=1 " else "* * * ")
  ++ sys_executable m ++ " " ++ script_path m ++ " disable >/dev/null 2>&1".

(** Crontabs: one whose entry is out of step with a backup at 00:03, one
    whose entry uses a schedule nickname, one with a foreign line only. *)
Definition stale_crontab : string :=
  "50 23 * * * /usr/bin/python3 /home/admin/manage_loadavg_check.py disable >/dev/null 2>&1"
  ++ Py.newline.

Definition nickname_crontab : string :=
  "@daily /usr/bin/python3 /home/admin/manage_loadavg_check.py disable" ++ Py.newline.

Definition foreign_crontab : string := "0 5 * * * /usr/bin/updatedb" ++ Py.newline.

Definition midnight_world (crontab : option string) : world :=
  sample_world (health_payload [JStr check_name]) (backup_payload 0 3) true crontab.

(** A health document with a key beside ['health'] and a key beside
    ['ignore_checks'], and a document without a ['health'] mapping. *)
Definition rich_payload (l : list json) : json :=
  JObj (<["notify" := JStr "ops@example.org"]>
          {[ "health" := JObj (<["interval" := JInt 60]> {[ "ignore_checks" := JList l ]}) ]}).

Definition bare_payload : json := JObj {[ "notify" := JStr "ops@example.org" ]}.

(** A world in which Ctrl-C arrives while [crontab -l] runs; the service
    accepts every request. *)
Definition interrupted_lookup : world :=
  World ∅ (sample_service (health_payload []) (backup_payload 0 3) true)
        (CrontabDev (Some stale_crontab) true Installs true) NoFile true [] false.

Definition sample_invocation (c : command) : invocation :=
  Invocation c false true "/home/admin/manage_loadavg_check.py" "/usr/bin/python3" "admin".

(** * Properties *)

(** ** Python primitives on samples *)

Example split_ex : Py.split "  43 23 * *	* x " = ["43"; "23"; "*"; "*"; "*"; "x"].
Proof. reflexivity. Qed.
Example int_ex : map Py.int ["12"; " 12 "; "+5"; "-5"; "1_000"; "0012"; "-0"]
               = map Ok [12; 12; 5; -5; 1000; 12; 0].
Proof. reflexivity. Qed.
Example int_bad : map Py.int ["- 5"; "_1"; "1_"; "1__0"; ""; "-"; "+-1"; "1 2"; "*"; "+_1"; "*/5"]
               = repeat (Raise ValueError) 11.
Proof. reflexivity. Qed.


(** ** The health payload *)

Lemma truthy_obj (m : gmap string json) k v : m !! k = Some v -> PyVal.truthy (JObj m) = true.
Proof.
  intros H. simpl. rewrite bool_decide_eq_false_2; [reflexivity|].
  intros ->. rewrite lookup_empty in H. discriminate.
Qed.

Lemma str_eq_check : PyVal.str_eq check_name (JStr check_name) = true.
Proof. reflexivity. Qed.

Lemma occurrences_app l1 l2 : occurrences (l1 ++ l2) = (occurrences l1 + occurrences l2)%nat.
Proof. unfold occurrences. rewrite List.filter_app, length_app. reflexivity. Qed.

Lemma existsb_occurrences l :
  existsb (PyVal.str_eq check_name) l = negb (occurrences l =? 0)%nat.
Proof.
  unfold occurrences. induction l as [|j l IH]; simpl; [reflexivity|].
  destruct (PyVal.str_eq check_name j); simpl; [reflexivity|exact IH].
Qed.

Lemma remove_first_occurrences l :
  match PyVal.remove_first check_name l with
  | Some l' => existsb (PyVal.str_eq check_name) l = true /\ S (occurrences l') = occurrences l
  | None => existsb (PyVal.str_eq check_name) l = false
  end.
Proof.
  unfold occurrences. induction l as [|j l IH]; simpl; [reflexivity|].
  destruct (PyVal.str_eq check_name j) eqn:E; simpl.
  - split; reflexivity.
  - destruct (PyVal.remove_first check_name l) as [l'|]; simpl.
    + rewrite E. exact IH.
    + exact IH.
Qed.

(** The shape of a well-formed payload once the empty answer is replaced. *)
Lemma health_wf_shape c :
  health_wf c ->
  exists m h l,
    current_config_of c = JObj m /\
    default (JObj ∅) (m !! "health") = JObj h /\
    default (JList []) (h !! "ignore_checks") = JList l /\
    ignore_checks_of c = l /\
    (forall k, k <> "health" -> obj_lookup c k = m !! k) /\
    (forall k, obj_lookup (health_of c) k = h !! k).
Proof.
  intros [Hf | (m & -> & Hm)].
  - exists {[ "health" := JObj ∅ ]}, ∅, [].
    unfold current_config_of. rewrite Hf.
    repeat split.
    + destruct c as [| | | | |m]; try reflexivity.
      simpl in Hf. apply negb_false_iff, bool_decide_eq_true_1 in Hf. subst m. reflexivity.
    + intros k Hk. rewrite lookup_singleton_ne by congruence.
      destruct c as [| | | | |m]; try reflexivity.
      simpl in Hf. apply negb_false_iff, bool_decide_eq_true_1 in Hf. subst m. reflexivity.
    + intros k.
      destruct c as [| | | | |m]; try reflexivity.
      simpl in Hf. apply negb_false_iff, bool_decide_eq_true_1 in Hf. subst m. reflexivity.
  - assert (Hcur : forall h l, default (JObj ∅) (m !! "health") = JObj h ->
               default (JList []) (h !! "ignore_checks") = JList l ->
               ignore_checks_of (JObj m) = l).
    { intros h l Hh Hl. unfold ignore_checks_of, health_of. simpl. rewrite Hh. simpl.
      destruct (h !! "ignore_checks") as [j|]; simpl in Hl; [subst j|]; congruence. }
    assert (Hk : forall h, default (JObj ∅) (m !! "health") = JObj h ->
               forall k, obj_lookup (health_of (JObj m)) k = h !! k).
    { intros h Hh k. unfold health_of. simpl. rewrite Hh. reflexivity. }
    destruct Hm as [Hm | (h & Hm & Hh)].
    + exists (if PyVal.truthy (JObj m) then m else {[ "health" := JObj ∅ ]}), ∅, [].
      unfold current_config_of.
      destruct (PyVal.truthy (JObj m)) eqn:Ht.
      * rewrite Hm. repeat split; auto.
        -- apply (Hcur ∅ []); rewrite ?Hm; reflexivity.
        -- apply Hk. rewrite Hm. reflexivity.
      * simpl in Ht. apply negb_false_iff, bool_decide_eq_true_1 in Ht. subst m.
        repeat split; auto. intros k Hk'. rewrite lookup_singleton_ne by congruence. reflexivity.
    + assert (Ht : PyVal.truthy (JObj m) = true) by (eapply truthy_obj; eassumption).
      unfold current_config_of. rewrite Ht.
      destruct Hh as [Hh | (l & Hh)].
      * exists m, h, []. rewrite Hm. simpl. rewrite Hh. repeat split; auto.
        -- apply (Hcur h []); rewrite ?Hm, ?Hh; reflexivity.
        -- apply Hk. rewrite Hm. reflexivity.
      * exists m, h, l. rewrite Hm. simpl. rewrite Hh. repeat split; auto.
        -- apply (Hcur h l); rewrite ?Hm, ?Hh; reflexivity.
        -- apply Hk. rewrite Hm. reflexivity.
Qed.

Lemma disable_payload_shape c (m h : gmap string json) l :
  current_config_of c = JObj m ->
  default (JObj ∅) (m !! "health") = JObj h ->
  default (JList []) (h !! "ignore_checks") = JList l ->
  disable_payload c
  = Ok (JObj (<["health" := JObj (<["ignore_checks" := JList (ignore_after_disable l)]> h)]> m)).
Proof.
  intros Hc Hh Hl. unfold disable_payload, ignore_after_disable. rewrite Hc.
  cbn [obind PyVal.get]. rewrite Hh. cbn [obind PyVal.get]. rewrite Hl.
  cbn [obind PyVal.contains].
  destruct (existsb (PyVal.str_eq check_name) l);
    cbn [negb obind PyVal.append PyVal.setdefault_setitem]; rewrite Hh; reflexivity.
Qed.

Lemma enable_payload_shape c (m h : gmap string json) l :
  current_config_of c = JObj m ->
  default (JObj ∅) (m !! "health") = JObj h ->
  default (JList []) (h !! "ignore_checks") = JList l ->
  enable_payload c = Ok (JObj (<["health" := JObj (health_after_enable h l)]> m)).
Proof.
  intros Hc Hh Hl. unfold enable_payload, health_after_enable, without_check.
  rewrite Hc. cbn [obind PyVal.get]. rewrite Hh. cbn [obind PyVal.get]. rewrite Hl.
  cbn [obind PyVal.contains].
  pose proof (remove_first_occurrences l) as Hr.
  destruct (PyVal.remove_first check_name l) as [l'|] eqn:Hrm.
  - destruct Hr as [-> _]. cbn [obind PyVal.remove]. rewrite Hrm.
    cbn [obind default from_option id].
    destruct l'; cbn [PyVal.truthy PyVal.setdefault_setitem PyVal.setdefault_pop];
      rewrite Hh; reflexivity.
  - rewrite Hr. cbn [obind default from_option id].
    destruct l; cbn [PyVal.truthy PyVal.setdefault_setitem PyVal.setdefault_pop];
      rewrite Hh; reflexivity.
Qed.

Lemma ignore_checks_of_put (m h : gmap string json) l :
  ignore_checks_of (JObj (<["health" := JObj (<["ignore_checks" := JList l]> h)]> m)) = l.
Proof.
  unfold ignore_checks_of, health_of. simpl.
  rewrite lookup_insert_eq. simpl. rewrite lookup_insert_eq. reflexivity.
Qed.

Lemma ignore_checks_of_enabled (m h : gmap string json) l :
  ignore_checks_of (JObj (<["health" := JObj (health_after_enable h l)]> m)) = without_check l.
Proof.
  unfold ignore_checks_of, health_of, health_after_enable. simpl.
  rewrite lookup_insert_eq. simpl.
  destruct (without_check l).
  - rewrite lookup_delete_eq. reflexivity.
  - rewrite lookup_insert_eq. reflexivity.
Qed.

Lemma occurrences_after_disable l :
  occurrences (ignore_after_disable l) = Nat.max 1 (occurrences l).
Proof.
  unfold ignore_after_disable. rewrite existsb_occurrences.
  destruct (occurrences l =? 0)%nat eqn:E; simpl.
  - apply Nat.eqb_eq in E. rewrite occurrences_app, E. reflexivity.
  - apply Nat.eqb_neq in E. lia.
Qed.

Lemma occurrences_without_check l :
  occurrences (without_check l) = Nat.pred (occurrences l).
Proof.
  unfold without_check. pose proof (remove_first_occurrences l) as Hr.
  destruct (PyVal.remove_first check_name l) as [l'|]; simpl.
  - destruct Hr as [_ <-]. reflexivity.
  - rewrite existsb_occurrences in Hr. apply negb_false_iff, Nat.eqb_eq in Hr.
    rewrite Hr. reflexivity.
Qed.

Lemma disable_payload_fixed (m h : gmap string json) l :
  let p := JObj (<["health" := JObj (<["ignore_checks" := JList (ignore_after_disable l)]> h)]> m) in
  disable_payload p = Ok p.
Proof.
  intros p.
  assert (Hex : existsb (PyVal.str_eq check_name) (ignore_after_disable l) = true).
  { rewrite existsb_occurrences, occurrences_after_disable.
    destruct (occurrences l); reflexivity. }
  rewrite (disable_payload_shape p (<["health" := JObj (<["ignore_checks" := JList (ignore_after_disable l)]> h)]> m)
             (<["ignore_checks" := JList (ignore_after_disable l)]> h) (ignore_after_disable l)).
  - unfold p. f_equal. f_equal. rewrite insert_insert_eq.
    f_equal. f_equal. unfold ignore_after_disable at 1. rewrite Hex.
    rewrite insert_insert_eq. reflexivity.
  - unfold current_config_of, p.
    erewrite truthy_obj; [reflexivity|]. apply lookup_insert_eq.
  - rewrite lookup_insert_eq. reflexivity.
  - rewrite lookup_insert_eq. reflexivity.
Qed.

Lemma enable_payload_fixed (m h : gmap string json) l :
  (occurrences l <= 1)%nat ->
  let q := JObj (<["health" := JObj (health_after_enable h l)]> m) in
  enable_payload q = Ok q.
Proof.
  intros Hn q.
  assert (Hw : without_check (without_check l) = without_check l).
  { unfold without_check at 1.
    pose proof (remove_first_occurrences (without_check l)) as Hr.
    destruct (PyVal.remove_first check_name (without_check l)); [|reflexivity].
    destruct Hr as [_ Hr]. rewrite occurrences_without_check in Hr. lia. }
  rewrite (enable_payload_shape q (<["health" := JObj (health_after_enable h l)]> m)
             (health_after_enable h l) (without_check l)).
  - unfold q. f_equal. f_equal. rewrite insert_insert_eq. f_equal. f_equal.
    unfold health_after_enable. rewrite Hw.
    destruct (without_check l).
    + apply delete_delete_eq.
    + apply insert_insert_eq.
  - unfold current_config_of, q.
    erewrite truthy_obj; [reflexivity|]. apply lookup_insert_eq.
  - rewrite lookup_insert_eq. reflexivity.
  - unfold health_after_enable. destruct (without_check l).
    + rewrite lookup_delete_eq. reflexivity.
    + rewrite lookup_insert_eq. reflexivity.
Qed.

(** ** Running the primitives *)

Lemma bind_run_ok {A B : Type} (m : M A) (k : A -> M B) w a w1 e1 :
  m w = Run (Ok a) w1 e1 ->
  bind m k w = Run (result (k a w1)) (after (k a w1)) (e1 ++ events (k a w1)).
Proof. intros H. unfold bind. rewrite H. reflexivity. Qed.

Lemma bind_run_raise {A B : Type} (m : M A) (k : A -> M B) w e w1 e1 :
  m w = Run (Raise e) w1 e1 ->
  bind m k w = Run (Raise e) w1 e1.
Proof. intros H. unfold bind. rewrite H. reflexivity. Qed.

Lemma run_eta {A : Type} (r : run A) : Run (result r) (after r) (events r) = r.
Proof. destruct r; reflexivity. Qed.

Lemma api_config_get_run category w :
  api_config_get category w
  = Run (Ok (fetched w category)) w
        [HttpGet (config_url category) (on_get (service w) (config_url category))].
Proof.
  unfold api_config_get, fetched, try_except, session_get, bind, get_world, emit,
    answered, response_json, ret, raise. cbn.
  destruct (on_get (service w) (config_url category)) as [|[] text [j|]]; reflexivity.
Qed.

Lemma api_config_put_run category data w :
  api_config_put category data w
  = Run (Ok (response_ok (on_put (service w) (config_url category) data))) w
        [HttpPut (config_url category) data (on_put (service w) (config_url category) data)].
Proof.
  unfold api_config_put, try_except, session_put, bind, get_world, emit,
    answered, ret, raise. cbn.
  destruct (on_put (service w) (config_url category) data) as [|ok text body]; reflexivity.
Qed.

Lemma api_config_apply_run w :
  api_config_apply w
  = Run (Ok (response_ok (on_post (service w) apply_url None))) w
        [HttpPost apply_url None (on_post (service w) apply_url None)].
Proof.
  unfold api_config_apply, try_except, session_post, bind, get_world, emit,
    answered, ret, raise. cbn.
  destruct (on_post (service w) apply_url None) as [|ok text body]; reflexivity.
Qed.

Lemma get_backup_schedule_run w :
  get_backup_schedule w
  = Run (schedule_of (fetched w "os/backup/auto-backup")) w
        [HttpGet (config_url "os/backup/auto-backup")
           (on_get (service w) (config_url "os/backup/auto-backup"))].
Proof.
  unfold get_backup_schedule.
  rewrite (bind_run_ok _ _ _ _ _ _ (api_config_get_run _ w)).
  unfold lift. cbn. destruct (schedule_of _); reflexivity.
Qed.

Lemma get_stored_credentials_run w :
  get_stored_credentials w = Run (Ok (stored_credentials (creds_file w))) w [].
Proof.
  unfold get_stored_credentials, stored_credentials, creds_exists, creds_readlines,
    try_except, decode_line, bind, get_world, ret, raise.
  destruct w as [env svc cr file wr kb si]. cbn.
  destruct file as [| |text]; cbn; try reflexivity.
  destruct (Py.readlines text) as [|line0 [|line1 rest]]; cbn; try reflexivity.
  destruct (b64decode (Py.strip line0)); cbn; [|reflexivity].
  destruct (b64decode (Py.strip line1)); cbn; reflexivity.
Qed.

Lemma login_request_run username password w :
  exists b r,
    try_except is_Exception (login_request username password) (ret false) w
    = Run (Ok b) w
        [HttpPost login_url (Some ("username=" ++ username ++ "&password=" ++ password)) r].
Proof.
  unfold login_request, try_except, session_post, bind, get_world, emit, answered, ret, raise.
  cbn.
  destruct (on_post (service w) login_url _) as [|ok text body] eqn:E; cbn; eauto.
Qed.

Lemma api_login_run w :
  exists b evs,
    api_login w = Run (Ok b) w evs /\
    (evs = [] \/ exists data r, evs = [HttpPost login_url (Some data) r]).
Proof.
  unfold api_login, os_environ_get, bind, get_world.
  cbn [ret result after events app].
  destruct (usable (environ w !! "FMOS_API_USER") (environ w !! "FMOS_API_PASS"))
    as [[username password]|].
  - cbn [ret result after events app].
    destruct (login_request_run username password w) as (b & r & ->).
    cbn. eauto 8.
  - rewrite get_stored_credentials_run. cbn [result after events app ret].
    destruct (stored_credentials (creds_file w)) as [u p].
    cbn [ret result after events app].
    destruct (usable u p) as [[username password]|].
    + destruct (login_request_run username password w) as (b & r & ->).
      cbn. eauto 8.
    + cbn. eauto.
Qed.

(** ** Running the crontab operations *)

Lemma get_current_cron_entry_run m w :
  get_current_cron_entry m w = Run (Ok (current_entry m (cron w))) w [CrontabList].
Proof.
  unfold get_current_cron_entry, current_entry, try_except, crontab_l, bind, get_world,
    emit, ret, raise.
  cbn. destruct (list_fails (cron w)); cbn; [reflexivity|].
  destruct (table (cron w)); cbn; reflexivity.
Qed.

Lemma crontab_l_run w :
  crontab_l w
  = if list_fails (cron w)
    then Run (Raise (if list_interrupted (cron w) then KeyboardInterrupt else OSError)) w
           [CrontabList]
    else Run (Ok (match table (cron w) with Some t => (0, t) | None => (1, "") end)) w
           [CrontabList].
Proof.
  unfold crontab_l, bind, emit, get_world, ret, raise. cbn.
  destruct (list_fails (cron w)); [reflexivity|].
  destruct (table (cron w)); reflexivity.
Qed.

Lemma crontab_install_run input w :
  crontab_install input w
  = match install (cron w) with
    | Installs =>
        Run (Ok tt)
          (with_cron
             (CrontabDev (Some input) (list_fails (cron w)) Installs (list_interrupted (cron w)))
             w)
          [CrontabInstall input]
    | Rejects => Run (Ok tt) w [CrontabInstall input]
    | InstallFails => Run (Raise OSError) w [CrontabInstall input]
    | InstallInterrupted => Run (Raise KeyboardInterrupt) w [CrontabInstall input]
    end.
Proof.
  unfold crontab_install, bind, emit, get_world, put_world, ret, raise. cbn.
  destruct (install (cron w)); reflexivity.
Qed.

Lemma lift_run {A : Type} (o : outcome A) w : lift o w = Run o w [].
Proof. reflexivity. Qed.

(** The run of [setup_cronjob] once the schedule is known. *)
Lemma setup_cronjob_run m w :
  setup_cronjob m w
  = match schedule_of (fetched w "os/backup/auto-backup") with
    | Raise e =>
        Run (Raise e) w
          [HttpGet (config_url "os/backup/auto-backup")
             (on_get (service w) (config_url "os/backup/auto-backup"))]
    | Ok s =>
        let get := HttpGet (config_url "os/backup/auto-backup")
                     (on_get (service w) (config_url "os/backup/auto-backup")) in
        let input := rewritten_table m s (cron w) in
        if list_fails (cron w) then
          Run (if list_interrupted (cron w) then Raise KeyboardInterrupt else Ok false) w
            [get; CrontabList]
        else
          let printed :=
            match PyVal.format_02d (minute s), PyVal.format_02d (pre_minute s) with
            | Ok _, Ok _ => true
            | _, _ => false
            end in
          match install (cron w) with
          | Installs =>
              Run (Ok printed)
                (with_cron (CrontabDev (Some input) false Installs (list_interrupted (cron w))) w)
                [get; CrontabList; CrontabInstall input]
          | Rejects => Run (Ok printed) w [get; CrontabList; CrontabInstall input]
          | InstallFails => Run (Ok false) w [get; CrontabList; CrontabInstall input]
          | InstallInterrupted =>
              Run (Raise KeyboardInterrupt) w [get; CrontabList; CrontabInstall input]
          end
    end.
Proof.
  unfold setup_cronjob, bind. rewrite get_backup_schedule_run. cbn [result after events].
  destruct (schedule_of _) as [s|e]; [|reflexivity].
  cbn zeta. unfold try_except, bind, rewritten_table. rewrite crontab_l_run.
  destruct (list_fails (cron w)) eqn:Hl;
    [destruct (list_interrupted (cron w)); reflexivity|].
  cbn [result after events].
  destruct (table (cron w)) as [t|] eqn:Ht; cbn [Z.eqb default from_option id].
  all: rewrite crontab_install_run, Hl.
  all: destruct (install (cron w)); cbn [result after events is_Exception ret app];
     rewrite ?lift_run; cbn [result after events is_Exception ret app]; try reflexivity.
  all: (destruct (PyVal.format_02d (minute s)) as [[]|e1] eqn:E1;
      [|destruct (minute s); try discriminate E1; injection E1 as <-; reflexivity]);
     cbn [result after events is_Exception ret app];
     (destruct (PyVal.format_02d (pre_minute s)) as [[]|e2] eqn:E2;
      [|destruct (pre_minute s); try discriminate E2; injection E2 as <-; reflexivity]);
     reflexivity.
Qed.

Lemma setup_cronjob_frame m w :
  service (after (setup_cronjob m w)) = service w /\
  no_writes (events (setup_cronjob m w)) = true.
Proof.
  rewrite setup_cronjob_run.
  destruct (schedule_of _) as [s|e]; [|split; reflexivity].
  cbv zeta. generalize (rewritten_table m s (cron w)). intros input.
  destruct (list_fails (cron w)); [split; reflexivity|].
  destruct (install (cron w)); split; reflexivity.
Qed.

Lemma check_and_update_cronjob_frame m w :
  service (after (check_and_update_cronjob m w)) = service w /\
  no_writes (events (check_and_update_cronjob m w)) = true.
Proof.
  unfold check_and_update_cronjob, bind. rewrite get_backup_schedule_run.
  cbn [result after events].
  destruct (schedule_of _) as [s|e]; [|split; reflexivity].
  rewrite get_current_cron_entry_run. cbn [result after events].
  destruct (current_entry m (cron w)) as [entry|]; [|split; reflexivity].
  destruct (Py.is_empty entry); [split; reflexivity|].
  destruct (5 <=? length (Py.split entry))%nat; [|split; reflexivity].
  rewrite !lift_run. cbn [result after events].
  destruct (Py.int (nth 0 (Py.split entry) "")) as [cm|e]; [|split; reflexivity].
  cbn [result after events].
  destruct (Py.int (nth 1 (Py.split entry) "")) as [ch|e]; [|split; reflexivity].
  cbn [result after events].
  destruct (_ || _); [|split; reflexivity].
  rewrite lift_run. cbn [result after events].
  destruct (PyVal.format_02d (pre_minute s)); [|split; reflexivity].
  cbn [result after events].
  destruct (setup_cronjob_frame m w) as [Hs Hn].
  destruct (setup_cronjob m w) as [res w' evs]. cbn [result after events] in *.
  destruct res; cbn [result after events ret]; split; auto;
    rewrite ?app_nil_r; cbn [app]; exact Hn.
Qed.

(** ** Running the toggle operations *)

Lemma disable_check_toggle m :
  disable_check m = (check_and_update_cronjob m;; toggle disable_payload).
Proof. reflexivity. Qed.

Lemma enable_check_toggle m :
  enable_check m
  = ((if no_wait m then ret tt else time_sleep 900);;
     check_and_update_cronjob m;; toggle enable_payload).
Proof. reflexivity. Qed.

Lemma fetched_service w w' category :
  service w' = service w -> fetched w' category = fetched w category.
Proof. unfold fetched. intros ->. reflexivity. Qed.

Lemma put_and_apply_service w w' category payload :
  service w' = service w -> put_and_apply w' category payload = put_and_apply w category payload.
Proof. unfold put_and_apply. intros ->. reflexivity. Qed.

Lemma no_writes_app l1 l2 : no_writes (l1 ++ l2) = no_writes l1 && no_writes l2.
Proof. unfold no_writes. apply forallb_app. Qed.

Lemma toggle_run f w :
  exists pre tail,
    events (toggle f w) = (pre ++ tail)%list /\
    no_writes pre = true /\
    after (toggle f w) = w /\
    (tail = [] \/
     exists p, f (fetched w "os/health") = Ok p /\ tail = put_and_apply w "os/health" p).
Proof.
  unfold toggle, bind.
  destruct (api_login_run w) as (b & evs & -> & Hevs).
  assert (Hn : no_writes evs = true).
  { destruct Hevs as [-> | (data & r & ->)]; reflexivity. }
  cbn [result after events].
  destruct b; cbn [negb].
  - rewrite api_config_get_run. cbn [result after events].
    rewrite !lift_run. cbn [result after events].
    set (get := HttpGet (config_url "os/health") (on_get (service w) (config_url "os/health"))).
    assert (Hpre : no_writes (evs ++ [get]) = true).
    { rewrite no_writes_app, Hn. reflexivity. }
    destruct (f (fetched w "os/health")) as [p|e] eqn:Hf.
    + rewrite api_config_put_run. cbn [result after events].
      exists (evs ++ [get])%list, (put_and_apply w "os/health" p).
      unfold put_and_apply. cbv zeta.
      destruct (response_ok (on_put (service w) (config_url "os/health") p)) eqn:Hok.
      * rewrite api_config_apply_run. cbn [result after events app].
        rewrite <- app_assoc. cbn [app].
        split; [reflexivity|]. split; [exact Hpre|]. split; [reflexivity|].
        right. exists p. split; [reflexivity|]. cbv zeta. rewrite Hok. reflexivity.
      * cbn [ret result after events app].
        rewrite <- app_assoc. cbn [app].
        split; [reflexivity|]. split; [exact Hpre|]. split; [reflexivity|].
        right. exists p. split; [reflexivity|]. cbv zeta. rewrite Hok. reflexivity.
    + exists (evs ++ [get])%list, []. cbn [result after events].
      rewrite !app_nil_r.
      split; [reflexivity|]. split; [exact Hpre|]. split; [reflexivity|]. left. reflexivity.
  - exists evs, []. cbn [ret result after events]. rewrite !app_nil_r.
    split; [reflexivity|]. split; [exact Hn|]. split; [reflexivity|]. left. reflexivity.
Qed.

Lemma disable_check_run m w :
  exists pre tail,
    events (disable_check m w) = (pre ++ tail)%list /\
    no_writes pre = true /\
    service (after (disable_check m w)) = service w /\
    (tail = [] \/
     exists p, disable_payload (fetched w "os/health") = Ok p /\
               tail = put_and_apply w "os/health" p).
Proof.
  rewrite disable_check_toggle. unfold bind.
  destruct (check_and_update_cronjob_frame m w) as [Hs Hn].
  destruct (check_and_update_cronjob m w) as [res w1 e1]. cbn [result after events] in *.
  destruct res as [[]|e].
  - destruct (toggle_run disable_payload w1) as (pre & tail & He & Hp & Ha & Ht).
    cbn [result after events]. rewrite He, Ha.
    exists (e1 ++ pre)%list, tail. rewrite app_assoc, no_writes_app, Hn, Hp.
    split; [reflexivity|]. split; [reflexivity|]. split; [exact Hs|].
    destruct Ht as [Ht | (p & Hf & Ht)]; [left; exact Ht|].
    right. exists p.
    rewrite (fetched_service w w1) in Hf by exact Hs.
    rewrite (put_and_apply_service w w1) in Ht by exact Hs. auto.
  - exists e1, []. cbn. rewrite app_nil_r. auto.
Qed.

Lemma enable_check_run m w :
  exists pre tail,
    events (enable_check m w) = (pre ++ tail)%list /\
    no_writes pre = true /\
    service (after (enable_check m w)) = service w /\
    (tail = [] \/
     exists p, enable_payload (fetched w "os/health") = Ok p /\
               tail = put_and_apply w "os/health" p).
Proof.
  rewrite enable_check_toggle. unfold bind.
  assert (Hw : exists res e0, (if no_wait m then ret tt else time_sleep 900) w = Run res w e0
                          /\ no_writes e0 = true).
  { destruct (no_wait m); [cbn; eauto|].
    unfold time_sleep, bind, emit, get_world, ret, raise. cbn.
    destruct (sleep_interrupted w); cbn; eauto. }
  destruct Hw as (res0 & e0 & -> & Hn0). cbn [result after events].
  destruct res0 as [[]|e]; [|exists e0, []; cbn; rewrite app_nil_r; auto].
  destruct (check_and_update_cronjob_frame m w) as [Hs Hn].
  destruct (check_and_update_cronjob m w) as [res w1 e1]. cbn [result after events] in *.
  destruct res as [[]|e].
  - destruct (toggle_run enable_payload w1) as (pre & tail & He & Hp & Ha & Ht).
    cbn [result after events]. rewrite He, Ha.
    exists (e0 ++ e1 ++ pre)%list, tail.
    rewrite !no_writes_app, Hn0, Hn, Hp, <- !app_assoc.
    split; [reflexivity|]. split; [reflexivity|]. split; [exact Hs|].
    destruct Ht as [Ht | (p & Hf & Ht)]; [left; exact Ht|].
    right. exists p.
    rewrite (fetched_service w w1) in Hf by exact Hs.
    rewrite (put_and_apply_service w w1) in Ht by exact Hs. auto.
  - exists (e0 ++ e1)%list, []. cbn. rewrite app_nil_r, no_writes_app, Hn0, Hn. auto.
Qed.

Lemma paired_pre always pre tail :
  no_writes pre = true -> paired always (pre ++ tail) = paired always tail.
Proof.
  induction pre as [|e pre IH]; intros H; [reflexivity|].
  cbn in H. apply andb_true_iff in H as [He Hp].
  destruct e; cbn in *; try discriminate; auto.
Qed.

Lemma is_apply_apply r : is_apply (HttpPost apply_url None r) = true.
Proof. reflexivity. Qed.

Lemma paired_put_and_apply always w category p :
  paired always (put_and_apply w category p)
  = (if always (config_url category)
     then response_ok (on_put (service w) (config_url category) p)
     else true).
Proof.
  unfold put_and_apply. cbv zeta.
  destruct (response_ok (on_put (service w) (config_url category) p)) eqn:Hok;
    cbn [paired is_apply]; rewrite ?Hok, ?String.eqb_refl;
    destruct (always (config_url category)); reflexivity.
Qed.

Lemma in_put_pre pre tail url p r :
  no_writes pre = true ->
  In (HttpPut url p r) (pre ++ tail) -> In (HttpPut url p r) tail.
Proof.
  intros Hn Hin. apply in_app_or in Hin as [Hin|Hin]; [|exact Hin].
  unfold no_writes in Hn. rewrite forallb_forall in Hn.
  apply Hn in Hin. discriminate.
Qed.

Lemma in_put_and_apply w category p' url p r :
  In (HttpPut url p r) (put_and_apply w category p') ->
  url = config_url category /\ p = p'.
Proof.
  unfold put_and_apply. intros [H|H].
  - inversion H. auto.
  - destruct (response_ok _); [destruct H as [H|[]]; discriminate|destruct H].
Qed.

(** Every PUT of [disable_check] goes to the health category and carries
    [disable_payload] of the fetched document. *)
Lemma disable_check_put m w url p r :
  In (HttpPut url p r) (events (disable_check m w)) ->
  url = config_url "os/health" /\ disable_payload (fetched w "os/health") = Ok p.
Proof.
  destruct (disable_check_run m w) as (pre & tail & -> & Hn & _ & Ht).
  intros Hin. apply in_put_pre in Hin; [|exact Hn].
  destruct Ht as [-> | (p' & Hp & ->)]; [destruct Hin|].
  apply in_put_and_apply in Hin as [-> ->]. auto.
Qed.

Lemma enable_check_put m w url p r :
  In (HttpPut url p r) (events (enable_check m w)) ->
  url = config_url "os/health" /\ enable_payload (fetched w "os/health") = Ok p.
Proof.
  destruct (enable_check_run m w) as (pre & tail & -> & Hn & _ & Ht).
  intros Hin. apply in_put_pre in Hin; [|exact Hn].
  destruct Ht as [-> | (p' & Hp & ->)]; [destruct Hin|].
  apply in_put_and_apply in Hin as [-> ->]. auto.
Qed.

(** ** The ignore list after a toggle *)

(** C1 (as amended). For every well-formed health payload whose ignore list
    holds the check identifier [n] times, [disable_check] writes a payload
    whose list holds it [max 1 n] times (it appends only when the identifier
    is absent) and [enable_check] one whose list holds it [n - 1] times (it
    takes out the first occurrence only, nothing when absent); every PUT of
    either operation carries that payload.  Disabling again changes nothing;
    and when [n <= 1] the identifier occurs exactly once after
    [disable_check], is absent after [enable_check], and enabling again
    changes nothing. *)
Theorem C1_ignore_list_counts (c : json) :
  health_wf c ->
  exists p q,
    disable_payload c = Ok p /\
    enable_payload c = Ok q /\
    (forall m w url p' r, fetched w "os/health" = c ->
       In (HttpPut url p' r) (events (disable_check m w)) -> p' = p) /\
    (forall m w url q' r, fetched w "os/health" = c ->
       In (HttpPut url q' r) (events (enable_check m w)) -> q' = q) /\
    occurrences (ignore_checks_of p) = Nat.max 1 (occurrences (ignore_checks_of c)) /\
    occurrences (ignore_checks_of q) = Nat.pred (occurrences (ignore_checks_of c)) /\
    disable_payload p = Ok p /\
    ((occurrences (ignore_checks_of c) <= 1)%nat ->
       occurrences (ignore_checks_of p) = 1%nat /\
       occurrences (ignore_checks_of q) = 0%nat /\
       enable_payload q = Ok q).
Proof.
  intros Hwf.
  destruct (health_wf_shape c Hwf) as (m & h & l & Hc & Hh & Hl & Hig & _ & _).
  pose proof (disable_payload_shape c m h l Hc Hh Hl) as Hd.
  pose proof (enable_payload_shape c m h l Hc Hh Hl) as He.
  eexists _, _. split; [exact Hd|]. split; [exact He|].
  rewrite ignore_checks_of_put, ignore_checks_of_enabled, Hig,
    occurrences_after_disable, occurrences_without_check.
  split; [|split; [|split; [|split; [|split]]]].
  - intros mg w url p' r Hf Hin. apply disable_check_put in Hin as [_ Hin].
    rewrite Hf, Hd in Hin. congruence.
  - intros mg w url q' r Hf Hin. apply enable_check_put in Hin as [_ Hin].
    rewrite Hf, He in Hin. congruence.
  - reflexivity.
  - reflexivity.
  - apply disable_payload_fixed.
  - intros Hn. split; [lia|]. split; [lia|]. apply enable_payload_fixed. exact Hn.
Qed.

(** ** The payload written back by [enable_check] *)

(** C7. For a well-formed fetched health payload with ignore list [l], every
    PUT of [enable_check] carries a payload whose ['health'] mapping has no
    ['ignore_checks'] key when [l] without the identifier is empty, and
    holds exactly that list otherwise; [enable_payload] yields that payload. *)
Theorem C7_empty_list_pruned (m : manager) (w : world) (url : string) (p : json) (r : response) :
  health_wf (fetched w "os/health") ->
  In (HttpPut url p r) (events (enable_check m w)) ->
  enable_payload (fetched w "os/health") = Ok p /\
  obj_lookup (health_of p) "ignore_checks"
  = match without_check (ignore_checks_of (fetched w "os/health")) with
    | [] => None
    | l' => Some (JList l')
    end.
Proof.
  intros Hwf Hin. apply enable_check_put in Hin as [_ Hp]. split; [exact Hp|].
  destruct (health_wf_shape _ Hwf) as (mc & h & l & Hc & Hh & Hl & Hig & _ & _).
  rewrite (enable_payload_shape _ mc h l Hc Hh Hl) in Hp. injection Hp as <-.
  rewrite Hig. unfold health_of, health_after_enable. cbn [obj_lookup].
  rewrite lookup_insert_eq. cbn [default from_option id obj_lookup].
  destruct (without_check l).
  - apply lookup_delete_eq.
  - apply lookup_insert_eq.
Qed.

(** Whatever the fetched document, no payload that leaves [enable_payload]
    has an empty list under ['ignore_checks']. *)
Lemma enable_payload_no_empty_list c p :
  enable_payload c = Ok p ->
  obj_lookup (health_of p) "ignore_checks" <> Some (JList []).
Proof.
  unfold enable_payload.
  destruct (PyVal.get (current_config_of c) "health" (JObj ∅)) as [hj|]; [|discriminate].
  cbn [obind].
  destruct (PyVal.get hj "ignore_checks" (JList [])) as [ig|]; [|discriminate].
  cbn [obind].
  destruct (PyVal.contains check_name ig) as [b|]; [|discriminate].
  cbn [obind].
  destruct (if b then PyVal.remove ig check_name else Ok ig) as [ig'|]; [|discriminate].
  cbn [obind].
  destruct (PyVal.truthy ig') eqn:Ht.
  - unfold PyVal.setdefault_setitem.
    destruct (current_config_of c) as [| | | | |mc]; try discriminate.
    destruct (default (JObj ∅) (mc !! "health")) as [| | | | |h]; try discriminate.
    intros [= <-]. unfold health_of. cbn [obj_lookup].
    rewrite lookup_insert_eq. cbn [default from_option id obj_lookup].
    rewrite lookup_insert_eq. intros [= ->]. discriminate.
  - unfold PyVal.setdefault_pop.
    destruct (current_config_of c) as [| | | | |mc]; try discriminate.
    destruct (default (JObj ∅) (mc !! "health")) as [| | | | |h]; try discriminate.
    intros [= <-]. unfold health_of. cbn [obj_lookup].
    rewrite lookup_insert_eq. cbn [default from_option id obj_lookup].
    rewrite lookup_delete_eq. discriminate.
Qed.

(** ** What a toggle leaves alone *)

Lemma falsy_no_keys c k : PyVal.truthy c = false -> obj_lookup c k = None.
Proof.
  destruct c as [| | | | |m]; try reflexivity.
  cbn. intros H. apply negb_false_iff, bool_decide_eq_true_1 in H. subst m.
  apply lookup_empty.
Qed.

Lemma current_config_frame c (mc : gmap string json) :
  current_config_of c = JObj mc ->
  (forall k, k <> "health" -> obj_lookup c k = mc !! k) /\
  health_of c = default (JObj ∅) (mc !! "health").
Proof.
  unfold current_config_of. destruct (PyVal.truthy c) eqn:Ht.
  - intros ->. split; reflexivity.
  - intros [= <-]. split.
    + intros k Hk. rewrite lookup_singleton_ne by congruence. apply falsy_no_keys, Ht.
    + unfold health_of. rewrite (falsy_no_keys c "health" Ht). reflexivity.
Qed.

Lemma setitem_frame c (mc h : gmap string json) v :
  current_config_of c = JObj mc ->
  default (JObj ∅) (mc !! "health") = JObj h ->
  let p := JObj (<["health" := JObj (<["ignore_checks" := v]> h)]> mc) in
  (forall k, k <> "health" -> obj_lookup p k = obj_lookup c k) /\
  (forall k, k <> "ignore_checks" -> obj_lookup (health_of p) k = obj_lookup (health_of c) k).
Proof.
  intros Hc Hh p. destruct (current_config_frame c mc Hc) as [Hk Hhc]. split.
  - intros k Hne. cbn [p obj_lookup]. rewrite lookup_insert_ne by congruence.
    symmetry. apply Hk, Hne.
  - intros k Hne. rewrite Hhc, Hh. unfold p, health_of. cbn [obj_lookup].
    rewrite lookup_insert_eq. cbn [default from_option id obj_lookup].
    apply lookup_insert_ne. congruence.
Qed.

Lemma pop_frame c (mc h : gmap string json) :
  current_config_of c = JObj mc ->
  default (JObj ∅) (mc !! "health") = JObj h ->
  let p := JObj (<["health" := JObj (delete "ignore_checks" h)]> mc) in
  (forall k, k <> "health" -> obj_lookup p k = obj_lookup c k) /\
  (forall k, k <> "ignore_checks" -> obj_lookup (health_of p) k = obj_lookup (health_of c) k).
Proof.
  intros Hc Hh p. destruct (current_config_frame c mc Hc) as [Hk Hhc]. split.
  - intros k Hne. cbn [p obj_lookup]. rewrite lookup_insert_ne by congruence.
    symmetry. apply Hk, Hne.
  - intros k Hne. rewrite Hhc, Hh. unfold p, health_of. cbn [obj_lookup].
    rewrite lookup_insert_eq. cbn [default from_option id obj_lookup].
    apply lookup_delete_ne. congruence.
Qed.

Lemma disable_payload_frame c p :
  disable_payload c = Ok p ->
  (forall k, k <> "health" -> obj_lookup p k = obj_lookup c k) /\
  (forall k, k <> "ignore_checks" -> obj_lookup (health_of p) k = obj_lookup (health_of c) k).
Proof.
  unfold disable_payload.
  destruct (PyVal.get (current_config_of c) "health" (JObj ∅)) as [hj|]; [|discriminate].
  cbn [obind].
  destruct (PyVal.get hj "ignore_checks" (JList [])) as [ig|]; [|discriminate].
  cbn [obind].
  destruct (PyVal.contains check_name ig) as [b|]; [|discriminate].
  cbn [obind].
  destruct (if negb b then PyVal.append ig (JStr check_name) else Ok ig) as [ig'|];
    [|discriminate].
  cbn [obind]. unfold PyVal.setdefault_setitem.
  destruct (current_config_of c) as [| | | | |mc] eqn:Hc; try discriminate.
  destruct (default (JObj ∅) (mc !! "health")) as [| | | | |h] eqn:Hh; try discriminate.
  intros [= <-]. apply setitem_frame; assumption.
Qed.

Lemma enable_payload_frame c p :
  enable_payload c = Ok p ->
  (forall k, k <> "health" -> obj_lookup p k = obj_lookup c k) /\
  (forall k, k <> "ignore_checks" -> obj_lookup (health_of p) k = obj_lookup (health_of c) k).
Proof.
  unfold enable_payload.
  destruct (PyVal.get (current_config_of c) "health" (JObj ∅)) as [hj|]; [|discriminate].
  cbn [obind].
  destruct (PyVal.get hj "ignore_checks" (JList [])) as [ig|]; [|discriminate].
  cbn [obind].
  destruct (PyVal.contains check_name ig) as [b|]; [|discriminate].
  cbn [obind].
  destruct (if b then PyVal.remove ig check_name else Ok ig) as [ig'|]; [|discriminate].
  cbn [obind].
  destruct (PyVal.truthy ig').
  - unfold PyVal.setdefault_setitem.
    destruct (current_config_of c) as [| | | | |mc] eqn:Hc; try discriminate.
    destruct (default (JObj ∅) (mc !! "health")) as [| | | | |h] eqn:Hh; try discriminate.
    intros [= <-]. apply setitem_frame; assumption.
  - unfold PyVal.setdefault_pop.
    destruct (current_config_of c) as [| | | | |mc] eqn:Hc; try discriminate.
    destruct (default (JObj ∅) (mc !! "health")) as [| | | | |h] eqn:Hh; try discriminate.
    intros [= <-]. apply pop_frame; assumption.
Qed.

(** The payload either toggle writes: the current configuration with the
    ['ignore_checks'] entry of its ['health'] mapping set or removed. *)
Lemma disable_payload_form c p :
  disable_payload c = Ok p ->
  exists (mc h : gmap string json) v,
    current_config_of c = JObj mc /\
    default (JObj ∅) (mc !! "health") = JObj h /\
    p = JObj (<["health" := JObj (<["ignore_checks" := v]> h)]> mc).
Proof.
  unfold disable_payload.
  destruct (PyVal.get (current_config_of c) "health" (JObj ∅)) as [hj|]; [|discriminate].
  cbn [obind].
  destruct (PyVal.get hj "ignore_checks" (JList [])) as [ig|]; [|discriminate].
  cbn [obind].
  destruct (PyVal.contains check_name ig) as [b|]; [|discriminate].
  cbn [obind].
  destruct (if negb b then PyVal.append ig (JStr check_name) else Ok ig) as [ig'|];
    [|discriminate].
  cbn [obind]. unfold PyVal.setdefault_setitem.
  destruct (current_config_of c) as [| | | | |mc] eqn:Hc; try discriminate.
  destruct (default (JObj ∅) (mc !! "health")) as [| | | | |h] eqn:Hh; try discriminate.
  intros [= <-]. exists mc, h, ig'. repeat split; assumption.
Qed.

Lemma enable_payload_form c p :
  enable_payload c = Ok p ->
  exists (mc h h' : gmap string json),
    current_config_of c = JObj mc /\
    default (JObj ∅) (mc !! "health") = JObj h /\
    p = JObj (<["health" := JObj h']> mc) /\
    delete "ignore_checks" h' = delete "ignore_checks" h.
Proof.
  unfold enable_payload.
  destruct (PyVal.get (current_config_of c) "health" (JObj ∅)) as [hj|]; [|discriminate].
  cbn [obind].
  destruct (PyVal.get hj "ignore_checks" (JList [])) as [ig|]; [|discriminate].
  cbn [obind].
  destruct (PyVal.contains check_name ig) as [b|]; [|discriminate].
  cbn [obind].
  destruct (if b then PyVal.remove ig check_name else Ok ig) as [ig'|]; [|discriminate].
  cbn [obind].
  destruct (PyVal.truthy ig').
  - unfold PyVal.setdefault_setitem.
    destruct (current_config_of c) as [| | | | |mc] eqn:Hc; try discriminate.
    destruct (default (JObj ∅) (mc !! "health")) as [| | | | |h] eqn:Hh; try discriminate.
    intros [= <-]. exists mc, h, (<["ignore_checks" := ig']> h).
    repeat split; try assumption. apply delete_insert_eq.
  - unfold PyVal.setdefault_pop.
    destruct (current_config_of c) as [| | | | |mc] eqn:Hc; try discriminate.
    destruct (default (JObj ∅) (mc !! "health")) as [| | | | |h] eqn:Hh; try discriminate.
    intros [= <-]. exists mc, h, (delete "ignore_checks" h).
    repeat split; try assumption. apply delete_delete_eq.
Qed.

(** A written payload always has a ['health'] mapping; when the fetched
    document has one too, the two are identical but for ['ignore_checks']. *)
Lemma written_payload_identity c p (mc h h' : gmap string json) :
  current_config_of c = JObj mc ->
  default (JObj ∅) (mc !! "health") = JObj h ->
  p = JObj (<["health" := JObj h']> mc) ->
  delete "ignore_checks" h' = delete "ignore_checks" h ->
  (exists mp hp, p = JObj mp /\ mp !! "health" = Some (JObj hp)) /\
  (forall hc, obj_lookup c "health" = Some (JObj hc) ->
     sans_ignore_checks p = sans_ignore_checks c).
Proof.
  intros Hc Hh -> Hd. split.
  - exists (<["health" := JObj h']> mc), h'. split; [reflexivity|apply lookup_insert_eq].
  - intros hc Hl.
    assert (Hcc : c = JObj mc).
    { destruct c as [| | | | |m0]; try discriminate Hl.
      unfold current_config_of in Hc. rewrite (truthy_obj m0 "health" _ Hl) in Hc. exact Hc. }
    subst c. cbn [obj_lookup] in Hl. rewrite Hl in Hh. cbn in Hh. injection Hh as <-.
    unfold sans_ignore_checks. rewrite lookup_insert_eq, Hl, insert_insert_eq, Hd.
    reflexivity.
Qed.

(** C10 (as amended). Every payload [disable_check] or [enable_check] PUTs
    goes to the ['os/health'] category and has a ['health'] mapping, which is
    created when the fetched payload has none.  It agrees with the fetched
    payload on every top-level key other than ['health'] and on every key
    under ['health'] other than ['ignore_checks'], absent keys staying
    absent.  When the fetched payload has a ['health'] mapping, the two
    payloads are identical except for the ['ignore_checks'] entry under
    ['health']. *)
Theorem C10_other_keys_pass_through (m : manager) (w : world) (url : string) (p : json)
    (r : response) :
  In (HttpPut url p r) (events (disable_check m w)) \/
  In (HttpPut url p r) (events (enable_check m w)) ->
  url = config_url "os/health" /\
  (forall k, k <> "health" -> obj_lookup p k = obj_lookup (fetched w "os/health") k) /\
  (forall k, k <> "ignore_checks" ->
     obj_lookup (health_of p) k = obj_lookup (health_of (fetched w "os/health")) k) /\
  (exists mp hp, p = JObj mp /\ mp !! "health" = Some (JObj hp)) /\
  (forall hc, obj_lookup (fetched w "os/health") "health" = Some (JObj hc) ->
     sans_ignore_checks p = sans_ignore_checks (fetched w "os/health")).
Proof.
  intros [Hin|Hin].
  - apply disable_check_put in Hin as [-> Hp]. split; [reflexivity|].
    destruct (disable_payload_frame _ _ Hp) as [H1 H2].
    split; [exact H1|]. split; [exact H2|].
    destruct (disable_payload_form _ _ Hp) as (mc & h & v & Hc & Hh & Hpe).
    apply (written_payload_identity _ _ mc h _ Hc Hh Hpe), delete_insert_eq.
  - apply enable_check_put in Hin as [-> Hp]. split; [reflexivity|].
    destruct (enable_payload_frame _ _ Hp) as [H1 H2].
    split; [exact H1|]. split; [exact H2|].
    destruct (enable_payload_form _ _ Hp) as (mc & h & h' & Hc & Hh & Hpe & Hd).
    apply (written_payload_identity _ _ mc h h' Hc Hh Hpe Hd).
Qed.

(** ** The backup schedule *)

Lemma schedule_of_fields (cfg ab : gmap string json) :
  cfg <> ∅ ->
  default (JObj ∅) (cfg !! "auto_backup") = JObj ab ->
  schedule_of (JObj cfg)
  = (let hour := default (JInt 23) (ab !! "hour") in
     let minute := default (JInt 48) (ab !! "minute") in
     let schedule := default (JStr "daily") (ab !! "schedule") in
     let? pre_minute := PyVal.sub minute 5 in
     if pre_minute <? 0 then
       let? pre_hour := PyVal.sub hour 1 in
       Ok (BackupSchedule hour minute (JInt (if pre_hour <? 0 then 23 else pre_hour))
             (JInt (60 + pre_minute)) schedule)
     else Ok (BackupSchedule hour minute hour (JInt pre_minute) schedule)).
Proof.
  intros Hne Hab. unfold schedule_of.
  cbn [PyVal.truthy]. rewrite bool_decide_eq_false_2 by exact Hne.
  cbn [negb PyVal.get obind]. rewrite Hab. cbn [PyVal.get obind]. reflexivity.
Qed.

(** C2. For a backup configuration with hour [h] in 0..23 and minute [mi] in
    0..59, [get_backup_schedule] returns the schedule whose pre-backup time is
    the backup time minus five minutes: [mi - 5], plus 60 with the hour
    lowered by one when that is negative, hour 0 wrapping to 23.  The time
    stays a time of day ([ph * 60 + pm] is [h * 60 + mi - 5] modulo one day)
    and the ['schedule'] field passes through untouched. *)
Theorem C2_pre_backup_time (w : world) (cfg ab : gmap string json) (h mi : Z) :
  fetched w "os/backup/auto-backup" = JObj cfg ->
  cfg !! "auto_backup" = Some (JObj ab) ->
  ab !! "hour" = Some (JInt h) ->
  ab !! "minute" = Some (JInt mi) ->
  0 <= h <= 23 ->
  0 <= mi <= 59 ->
  exists ph pm,
    result (get_backup_schedule w)
    = Ok (BackupSchedule (JInt h) (JInt mi) (JInt ph) (JInt pm)
            (default (JStr "daily") (ab !! "schedule"))) /\
    pm = (if mi - 5 <? 0 then mi - 5 + 60 else mi - 5) /\
    ph = (if mi - 5 <? 0 then (if h =? 0 then 23 else h - 1) else h) /\
    0 <= ph <= 23 /\ 0 <= pm <= 59 /\
    ph * 60 + pm = (h * 60 + mi - 5) mod 1440.
Proof.
  intros Hf Hab Hh Hm Hhr Hmr.
  rewrite get_backup_schedule_run. cbn [result]. rewrite Hf.
  rewrite (schedule_of_fields cfg ab).
  2:{ intros ->. rewrite lookup_empty in Hab. discriminate. }
  2:{ rewrite Hab. reflexivity. }
  rewrite Hh, Hm. cbn [default from_option id PyVal.sub obind].
  destruct (mi - 5 <? 0) eqn:E.
  - apply Z.ltb_lt in E. cbn [obind].
    exists (if h =? 0 then 23 else h - 1), (mi - 5 + 60).
    split.
    { destruct (h =? 0) eqn:E0.
      - apply Z.eqb_eq in E0. subst h. cbn. do 3 f_equal. lia.
      - apply Z.eqb_neq in E0.
        replace (h - 1 <? 0) with false by (symmetry; apply Z.ltb_ge; lia).
        do 3 f_equal. lia. }
    split; [reflexivity|]. split; [reflexivity|].
    destruct (h =? 0) eqn:E0.
    + apply Z.eqb_eq in E0. subst h.
      split; [lia|]. split; [lia|].
      apply (Z.mod_unique_pos _ _ (-1)); lia.
    + apply Z.eqb_neq in E0.
      split; [lia|]. split; [lia|].
      apply (Z.mod_unique_pos _ _ 0); lia.
  - apply Z.ltb_ge in E.
    exists h, (mi - 5).
    split; [reflexivity|]. split; [reflexivity|]. split; [reflexivity|].
    split; [lia|]. split; [lia|].
    apply (Z.mod_unique_pos _ _ 0); lia.
Qed.

(** C6. When the answer for the auto-backup category is missing (the GET
    fails, or is no JSON) or empty, [get_backup_schedule] returns 23:48 daily
    with pre-backup time 23:43.  Otherwise every field the ['auto_backup']
    mapping lacks takes its default (23, 48, 'daily'), and a schedule is
    returned whenever the hour and minute so obtained are integers. *)
Theorem C6_schedule_defaults (w : world) :
  let category := "os/backup/auto-backup" in
  let defaults := BackupSchedule (JInt 23) (JInt 48) (JInt 23) (JInt 43) (JStr "daily") in
  (match on_get (service w) (config_url category) with
   | Response true _ (Some _) => True
   | _ => result (get_backup_schedule w) = Ok defaults
   end) /\
  (PyVal.truthy (fetched w category) = false ->
   result (get_backup_schedule w) = Ok defaults) /\
  (forall cfg ab : gmap string json,
     fetched w category = JObj cfg ->
     cfg <> ∅ ->
     default (JObj ∅) (cfg !! "auto_backup") = JObj ab ->
     (forall s, result (get_backup_schedule w) = Ok s ->
        hour s = default (JInt 23) (ab !! "hour") /\
        minute s = default (JInt 48) (ab !! "minute") /\
        schedule s = default (JStr "daily") (ab !! "schedule")) /\
     (forall h mi,
        default (JInt 23) (ab !! "hour") = JInt h ->
        default (JInt 48) (ab !! "minute") = JInt mi ->
        exists s, result (get_backup_schedule w) = Ok s) /\
     (ab !! "hour" = None -> ab !! "minute" = None ->
        result (get_backup_schedule w)
        = Ok (BackupSchedule (JInt 23) (JInt 48) (JInt 23) (JInt 43)
                (default (JStr "daily") (ab !! "schedule"))))).
Proof.
  intros category defaults.
  assert (Hfalsy : PyVal.truthy (fetched w category) = false ->
                   result (get_backup_schedule w) = Ok defaults).
  { intros Ht. rewrite get_backup_schedule_run. cbn [result].
    unfold schedule_of. fold category. rewrite Ht. reflexivity. }
  split; [|split; [exact Hfalsy|]].
  - destruct (on_get (service w) (config_url category)) as [|[] text [j|]] eqn:E;
      try exact I; apply Hfalsy; unfold fetched; rewrite E; reflexivity.
  - intros cfg ab Hf Hne Hab.
    rewrite get_backup_schedule_run. cbn [result]. fold category. rewrite Hf.
    rewrite (schedule_of_fields cfg ab Hne Hab). cbn zeta.
    split; [|split].
    + intros s.
      destruct (PyVal.sub (default (JInt 48) (ab !! "minute")) 5) as [pm|]; [|discriminate].
      cbn [obind]. destruct (pm <? 0).
      * destruct (PyVal.sub (default (JInt 23) (ab !! "hour")) 1) as [ph|]; [|discriminate].
        cbn [obind]. intros [= <-]. auto.
      * intros [= <-]. auto.
    + intros h mi -> ->. cbn [PyVal.sub obind].
      destruct (mi - 5 <? 0); cbn [obind]; eauto.
    + intros -> ->. reflexivity.
Qed.

(** ** The credential file *)


(** ** Exit codes *)

Lemma new_manager_run i w :
  exists mg, new_manager i w = Run (Ok mg) w [] /\
             script_path mg = inv_script_path i /\
             sys_executable mg = inv_executable i.
Proof. unfold new_manager, os_environ_get, bind, get_world, ret. cbn. eauto. Qed.

(** What [main] makes of the outcome of the dispatched command: 0 exactly
    when it reports success, 130 exactly when a [KeyboardInterrupt] reaches
    the top level, and 1 exactly when it reports failure or another
    exception reaches the top level.  [disable], [enable], [setup] and
    [credentials] report the value of their operation; [cleanup] and
    [status] report success whenever their operation returns. *)
Lemma exit_codes_of_main (i : invocation) (w : world) :
  (main i w = 0 \/ main i w = 1 \/ main i w = 130) /\
  (main i w = 0 <-> result (main_run i w) = Ok true) /\
  (main i w = 130 <-> result (main_run i w) = Raise KeyboardInterrupt) /\
  (main i w = 1 <->
     result (main_run i w) = Ok false \/
     exists e, result (main_run i w) = Raise e /\ is_Exception e = true) /\
  (exists mg, main_run i w = dispatch (inv_command i) mg w) /\
  (forall mg, dispatch CmdDisable mg = disable_check mg /\
              dispatch CmdEnable mg = enable_check mg /\
              dispatch CmdSetup mg = setup mg /\
              dispatch CmdCredentials mg = prompt_credentials mg) /\
  (forall mg w0,
     result (dispatch CmdCleanup mg w0)
     = match result (cleanup mg w0) with Ok _ => Ok true | Raise e => Raise e end /\
     result (dispatch CmdStatus mg w0)
     = match result (show_status mg w0) with Ok _ => Ok true | Raise e => Raise e end).
Proof.
  unfold main.
  split; [|split; [|split; [|split; [|split; [|split]]]]].
  - destruct (result (main_run i w)) as [[]|[]]; cbn; auto.
  - destruct (result (main_run i w)) as [[]|[]]; cbn; split; congruence.
  - destruct (result (main_run i w)) as [[]|[]]; cbn; split; congruence.
  - destruct (result (main_run i w)) as [[]|[]]; cbn; split;
      try congruence; try (intros _; eauto; fail);
      intros [H|(e & H & He)]; try discriminate;
      injection H as <-; discriminate.
  - destruct (new_manager_run i w) as (mg & Hm & _). exists mg.
    unfold main_run, bind. rewrite Hm. cbn [result after events app]. apply run_eta.
  - intros mg. repeat split.
  - intros mg w0. unfold dispatch, bind, ret. split.
    + destruct (result (cleanup mg w0)); reflexivity.
    + destruct (result (show_status mg w0)); reflexivity.
Qed.

(** ** Interrupts from the keyboard *)

(** The operations on decoded JSON raise the exceptions [except Exception]
    catches, never [KeyboardInterrupt]. *)
Lemma obind_calm {A B : Type} (o : outcome A) (k : A -> outcome B) :
  o <> Raise KeyboardInterrupt ->
  (forall a, k a <> Raise KeyboardInterrupt) ->
  obind o k <> Raise KeyboardInterrupt.
Proof.
  intros Ho Hk. destruct o as [a|e]; cbn [obind]; [apply Hk|].
  intros [= ->]. apply Ho. reflexivity.
Qed.

Lemma get_calm d key dflt : PyVal.get d key dflt <> Raise KeyboardInterrupt.
Proof. destruct d; discriminate. Qed.

Lemma contains_calm x c : PyVal.contains x c <> Raise KeyboardInterrupt.
Proof. destruct c; discriminate. Qed.

Lemma append_calm c x : PyVal.append c x <> Raise KeyboardInterrupt.
Proof. destruct c; discriminate. Qed.

Lemma remove_calm c x : PyVal.remove c x <> Raise KeyboardInterrupt.
Proof.
  destruct c; try discriminate. unfold PyVal.remove.
  destruct (PyVal.remove_first x l); discriminate.
Qed.

Lemma setdefault_setitem_calm d key item v :
  PyVal.setdefault_setitem d key item v <> Raise KeyboardInterrupt.
Proof.
  destruct d; try discriminate. unfold PyVal.setdefault_setitem.
  destruct (default (JObj ∅) (m !! key)); discriminate.
Qed.

Lemma setdefault_pop_calm d key item :
  PyVal.setdefault_pop d key item <> Raise KeyboardInterrupt.
Proof.
  destruct d; try discriminate. unfold PyVal.setdefault_pop.
  destruct (default (JObj ∅) (m !! key)); discriminate.
Qed.

Lemma sub_calm v k : PyVal.sub v k <> Raise KeyboardInterrupt.
Proof. destruct v; discriminate. Qed.

Lemma schedule_of_calm c : schedule_of c <> Raise KeyboardInterrupt.
Proof.
  unfold schedule_of. destruct (negb (PyVal.truthy c)); [discriminate|].
  apply obind_calm; [apply get_calm|intros auto_backup].
  apply obind_calm; [apply get_calm|intros hour].
  apply obind_calm; [apply get_calm|intros minute].
  apply obind_calm; [apply get_calm|intros schedule].
  apply obind_calm; [apply sub_calm|intros pre_minute].
  destruct (pre_minute <? 0); [|discriminate].
  apply obind_calm; [apply sub_calm|intros pre_hour]. discriminate.
Qed.

Lemma disable_payload_calm c : disable_payload c <> Raise KeyboardInterrupt.
Proof.
  unfold disable_payload.
  apply obind_calm; [apply get_calm|intros health].
  apply obind_calm; [apply get_calm|intros ignore_checks].
  apply obind_calm; [apply contains_calm|intros present].
  apply obind_calm; [|intros l; apply setdefault_setitem_calm].
  destruct (negb present); [apply append_calm|discriminate].
Qed.

(** With no entry found, [check_and_update_cronjob] ends after the lookup. *)
Lemma check_and_update_cronjob_no_entry m w :
  current_entry m (cron w) = None ->
  result (check_and_update_cronjob m w)
  = match schedule_of (fetched w "os/backup/auto-backup") with
    | Ok _ => Ok tt
    | Raise e => Raise e
    end /\
  after (check_and_update_cronjob m w) = w.
Proof.
  intros Hcur. unfold check_and_update_cronjob, bind. rewrite get_backup_schedule_run.
  cbn [result after events].
  destruct (schedule_of _) as [s|e]; [|split; reflexivity].
  rewrite get_current_cron_entry_run, Hcur. split; reflexivity.
Qed.

Lemma toggle_calm f w :
  (forall c, f c <> Raise KeyboardInterrupt) ->
  result (toggle f w) <> Raise KeyboardInterrupt.
Proof.
  intros Hf. unfold toggle, bind.
  destruct (api_login_run w) as (b & evs & -> & _). cbn [result after events].
  destruct b; cbn [negb]; [|discriminate].
  rewrite api_config_get_run. cbn [result after events]. rewrite lift_run.
  cbn [result after events].
  destruct (f (fetched w "os/health")) as [p|e] eqn:Hp;
    [|cbn [result]; intros [= ->]; exact (Hf _ Hp)].
  rewrite api_config_put_run. cbn [result after events].
  destruct (response_ok _); [|discriminate].
  rewrite api_config_apply_run. discriminate.
Qed.

Lemma exit_status_interrupt (o : outcome bool) :
  o <> Raise KeyboardInterrupt -> exit_status o = 0 \/ exit_status o = 1.
Proof. destruct o as [[]|[]]; cbn; auto. intros H. contradiction H. reflexivity. Qed.

Lemma main_run_dispatch i w :
  exists mg, main_run i w = dispatch (inv_command i) mg w.
Proof.
  destruct (new_manager_run i w) as (mg & Hm & _). exists mg.
  unfold main_run, bind. rewrite Hm. cbn [result after events app]. apply run_eta.
Qed.

(** C9. A Ctrl-C that arrives while [crontab -l] runs shows where the exit
    code 130 is missed.  [subprocess.run] raises [KeyboardInterrupt]; in
    [get_current_cron_entry] the bare [except:] of line 383 takes it for a
    failed lookup, so [disable] goes on as if no entry were installed and
    exits with 0 or 1, as the rest of the run decides, and not with 130.
    The same interrupt in the listing of [cleanup], which is under
    [except Exception], reaches [main] and gives 130. *)
Theorem C9_interrupt_lost_in_cron_lookup (i : invocation) (w : world) :
  inv_command i = CmdDisable ->
  list_fails (cron w) = true ->
  list_interrupted (cron w) = true ->
  crontab_l w = Run (Raise KeyboardInterrupt) w [CrontabList] /\
  (forall mg, get_current_cron_entry mg w = Run (Ok None) w [CrontabList]) /\
  (main i w = 0 \/ main i w = 1) /\
  (forall i', inv_command i' = CmdCleanup -> main i' w = 130).
Proof.
  intros Hc Hf Hi.
  assert (Hl : crontab_l w = Run (Raise KeyboardInterrupt) w [CrontabList]).
  { rewrite crontab_l_run, Hf, Hi. reflexivity. }
  assert (Hcur : forall mg, current_entry mg (cron w) = None).
  { intros mg. unfold current_entry. rewrite Hf. reflexivity. }
  split; [exact Hl|]. split; [|split].
  - intros mg. rewrite get_current_cron_entry_run, Hcur. reflexivity.
  - unfold main. destruct (main_run_dispatch i w) as (mg & ->). rewrite Hc.
    apply exit_status_interrupt. cbn [dispatch].
    rewrite disable_check_toggle. unfold bind.
    destruct (check_and_update_cronjob_no_entry mg w (Hcur mg)) as [Hr Ha].
    rewrite Hr, Ha.
    destruct (schedule_of (fetched w "os/backup/auto-backup")) as [s|e] eqn:Hs.
    + cbn [result]. apply toggle_calm, disable_payload_calm.
    + cbn [result]. intros [= ->]. exact (schedule_of_calm _ Hs).
  - intros i' Hc'. unfold main. destruct (main_run_dispatch i' w) as (mg & ->).
    rewrite Hc'. cbn [dispatch]. unfold cleanup, remove_cronjob, try_except, bind.
    rewrite Hl. reflexivity.
Qed.

(** ** PUT then APPLY *)

Lemma setup_post_backup_run m w :
  exists pre tail p,
    events (setup_post_backup m w) = (pre ++ tail)%list /\
    no_writes pre = true /\
    (tail = [] \/ tail = put_and_apply w "os/backup/post-backup" p).
Proof.
  unfold setup_post_backup, bind. cbv zeta.
  generalize (post_backup_config
                (if no_log m
                 then "NO_LOG=1 " ++ sys_executable m ++ " " ++ script_path m ++ " enable"
                 else sys_executable m ++ " " ++ script_path m ++ " enable")).
  intros p.
  destruct (api_login_run w) as (b & evs & -> & Hevs).
  assert (Hn : no_writes evs = true).
  { destruct Hevs as [-> | (data & r & ->)]; reflexivity. }
  cbn [result after events].
  destruct b; cbn [negb].
  - rewrite api_config_put_run. cbn [result after events].
    exists evs, (put_and_apply w "os/backup/post-backup" p), p.
    split; [|split; [exact Hn|right; reflexivity]].
    unfold put_and_apply. cbv zeta. destruct (response_ok _).
    + rewrite api_config_apply_run. reflexivity.
    + reflexivity.
  - exists evs, [], JNull. cbn [ret result after events].
    split; [reflexivity|]. split; [exact Hn|]. left. reflexivity.
Qed.

Lemma remove_cronjob_run m w :
  exists o w1 e1,
    remove_cronjob m w = Run o w1 e1 /\
    service w1 = service w /\ no_writes e1 = true.
Proof.
  unfold remove_cronjob, try_except, crontab_l, crontab_install, bind, get_world, put_world,
    emit, ret, raise.
  destruct w as [env svc [tb lf ins li] file wr kb si]. cbn.
  destruct lf; cbn;
    [destruct li; cbn; do 3 eexists; (split; [reflexivity|split; reflexivity])|].
  destruct tb as [t|]; cbn; [|do 3 eexists; (split; [reflexivity|split; reflexivity])].
  destruct ins; cbn; do 3 eexists; (split; [reflexivity|split; reflexivity]).
Qed.

Lemma clear_post_backup_run w :
  exists pre tail,
    clear_post_backup w = Run (Ok tt) w (pre ++ tail)%list /\
    no_writes pre = true /\
    (tail = [] \/
     tail = [HttpPut (config_url "os/backup/post-backup") no_post_backup
               (on_put (service w) (config_url "os/backup/post-backup") no_post_backup);
             HttpPost apply_url None (on_post (service w) apply_url None)]).
Proof.
  unfold clear_post_backup, bind.
  generalize no_post_backup. intros p.
  destruct (api_login_run w) as (b & evs & -> & Hevs).
  assert (Hn : no_writes evs = true).
  { destruct Hevs as [-> | (data & r & ->)]; reflexivity. }
  cbn [result after events].
  destruct b.
  - rewrite api_config_put_run. cbn [result after events].
    rewrite api_config_apply_run. cbn [result after events ret app].
    eexists evs, _. split; [reflexivity|]. split; [exact Hn|]. right. reflexivity.
  - exists evs, []. cbn [ret result after events].
    split; [reflexivity|]. split; [exact Hn|]. left. reflexivity.
Qed.

Lemma remove_credentials_run w :
  exists w1 e1,
    remove_credentials w = Run (Ok tt) w1 e1 /\
    service w1 = service w /\ no_writes e1 = true.
Proof.
  unfold remove_credentials, creds_exists, creds_unlink, bind, get_world, put_world, emit, ret.
  destruct w as [env svc cr file wr kb si]. cbn.
  destruct file; cbn; eauto.
Qed.

Lemma paired_toggle always pre tail w p :
  always (config_url "os/health") = false ->
  no_writes pre = true ->
  tail = [] \/ tail = put_and_apply w "os/health" p ->
  paired always (pre ++ tail) = true.
Proof.
  intros Ha Hn Ht. rewrite paired_pre by exact Hn.
  destruct Ht as [-> | ->]; [reflexivity|].
  rewrite paired_put_and_apply, Ha. reflexivity.
Qed.

Lemma paired_enable_check always m w :
  always (config_url "os/health") = false ->
  paired always (events (enable_check m w)) = true.
Proof.
  intros Ha. destruct (enable_check_run m w) as (pre & tail & -> & Hn & _ & Ht).
  destruct Ht as [-> | (p & _ & ->)].
  - apply (paired_toggle always pre [] w JNull); auto.
  - apply (paired_toggle always pre _ w p); auto.
Qed.

Lemma paired_disable_check always m w :
  always (config_url "os/health") = false ->
  paired always (events (disable_check m w)) = true.
Proof.
  intros Ha. destruct (disable_check_run m w) as (pre & tail & -> & Hn & _ & Ht).
  destruct Ht as [-> | (p & _ & ->)].
  - apply (paired_toggle always pre [] w JNull); auto.
  - apply (paired_toggle always pre _ w p); auto.
Qed.

Lemma cleanup_events m w :
  exists pre tail rest,
    events (cleanup m w) = (pre ++ tail ++ rest)%list /\
    (rest = [] \/ exists w3, rest = events (enable_check (with_no_wait m) w3)) /\
    no_writes pre = true /\
    (tail = [] \/
     exists mid,
       no_writes mid = true /\
       tail = (HttpPut (config_url "os/backup/post-backup") no_post_backup
                 (on_put (service w) (config_url "os/backup/post-backup") no_post_backup) ::
               HttpPost apply_url None (on_post (service w) apply_url None) :: mid)%list).
Proof.
  unfold cleanup. unfold bind at 1.
  destruct (remove_cronjob_run m w) as (o & w1 & e1 & -> & Hs1 & Hn1).
  cbn [result after events].
  destruct o as [[]|e]; cbn [result after events].
  2:{ exists e1, [], []. rewrite !app_nil_r.
      split; [reflexivity|]. split; [left; reflexivity|]. split; [exact Hn1|].
      left. reflexivity. }
  unfold bind at 1.
  destruct (clear_post_backup_run w1) as (pre & tail & -> & Hn2 & Ht).
  cbn [result after events]. unfold bind at 1.
  destruct (remove_credentials_run w1) as (w2 & e2 & -> & Hs2 & Hn3).
  cbn [result after events]. unfold bind at 1.
  assert (Hev : forall r : run bool,
            events match result r with
                   | Ok a => Run (result (ret tt (after r))) (after (ret tt (after r)))
                               (events r ++ events (ret tt (after r)))
                   | Raise e => Run (Raise e) (after r) (events r)
                   end = events r).
  { intros [[b|e] w' evs]; cbn [result after events ret]; [apply app_nil_r|reflexivity]. }
  rewrite Hev. clear Hev.
  destruct Ht as [-> | ->].
  - exists (e1 ++ pre ++ e2)%list, [], (events (enable_check (with_no_wait m) w2)).
    rewrite !no_writes_app, Hn1, Hn2, Hn3.
    split; [|split; [right; exists w2; reflexivity|split; [reflexivity|left; reflexivity]]].
    rewrite app_nil_r, <- !app_assoc. reflexivity.
  - exists (e1 ++ pre)%list,
      (HttpPut (config_url "os/backup/post-backup") no_post_backup
         (on_put (service w) (config_url "os/backup/post-backup") no_post_backup) ::
       HttpPost apply_url None (on_post (service w) apply_url None) :: e2)%list,
      (events (enable_check (with_no_wait m) w2)).
    rewrite !no_writes_app, Hn1, Hn2, Hs1.
    split; [|split; [right; exists w2; reflexivity
                    |split; [reflexivity|right; exists e2; split; [exact Hn3|reflexivity]]]].
    rewrite <- !app_assoc. reflexivity.
Qed.

(** C3 (as amended). In [disable_check], [enable_check] and
    [setup_post_backup] a PUT is directly followed by an APPLY exactly when
    the PUT succeeded: a failed PUT short-circuits the pair.  In [cleanup]
    the PUT that clears the post-backup configuration is directly followed by
    an APPLY whatever the PUT returned, and the PUT of the closing
    [enable_check] follows the short-circuit rule. *)
Theorem C3_put_then_apply (m : manager) (w : world) :
  paired short_circuit (events (disable_check m w)) = true /\
  paired short_circuit (events (enable_check m w)) = true /\
  paired short_circuit (events (setup_post_backup m w)) = true /\
  paired cleared_category (events (cleanup m w)) = true.
Proof.
  split; [|split; [|split]].
  - apply paired_disable_check. reflexivity.
  - apply paired_enable_check. reflexivity.
  - destruct (setup_post_backup_run m w) as (pre & tail & p & -> & Hn & Ht).
    rewrite paired_pre by exact Hn.
    destruct Ht as [-> | ->]; [reflexivity|].
    rewrite paired_put_and_apply. reflexivity.
  - destruct (cleanup_events m w) as (pre & tail & rest & -> & Hrest & Hn & Ht).
    assert (Hp : paired cleared_category rest = true).
    { destruct Hrest as [-> | (w3 & ->)]; [reflexivity|].
      apply paired_enable_check. reflexivity. }
    rewrite paired_pre by exact Hn.
    destruct Ht as [-> | (mid & Hmid & ->)].
    + exact Hp.
    + cbn [app paired]. rewrite is_apply_apply.
      replace (cleared_category (config_url "os/backup/post-backup")) with true
        by reflexivity.
      cbn [andb]. rewrite paired_pre by exact Hmid.
      exact Hp.
Qed.

(** ** The crontab check *)

Lemma find_none_Forall {A : Type} (f : A -> bool) (l : list A) :
  Forall (fun x => f x = false) l -> List.find f l = None.
Proof.
  induction 1 as [|x l Hx _ IH]; [reflexivity|]. cbn. rewrite Hx. exact IH.
Qed.

(** C4. When no line of the crontab mentions both the script path and the
    word 'disable' (or there is no crontab), [check_and_update_cronjob] hands
    nothing to [crontab -] and leaves the world as it found it. *)
Theorem C4_no_entry_no_write (m : manager) (w : world) :
  (forall t, table (cron w) = Some t ->
     Forall (fun line => is_disable_entry m line = false) (Py.splitlines t)) ->
  after (check_and_update_cronjob m w) = w /\
  installs (events (check_and_update_cronjob m w)) = [].
Proof.
  intros Hno.
  assert (Hcur : current_entry m (cron w) = None).
  { unfold current_entry. destruct (list_fails (cron w)); [reflexivity|].
    destruct (table (cron w)) as [t|]; [|reflexivity].
    rewrite find_none_Forall by (apply Hno; reflexivity). reflexivity. }
  unfold check_and_update_cronjob, bind. rewrite get_backup_schedule_run.
  cbn [result after events].
  destruct (schedule_of _) as [s|e]; [|split; reflexivity].
  rewrite get_current_cron_entry_run, Hcur. split; reflexivity.
Qed.

(** ** Strings: lines, fields and integer literals *)

Lemma append_cons x (a b : string) : (String x a ++ b = String x (a ++ b))%string.
Proof. reflexivity. Qed.

Lemma append_empty_l (a : string) : ("" ++ a = a)%string.
Proof. reflexivity. Qed.

Lemma append_assoc' (a b c : string) : ((a ++ b) ++ c = a ++ (b ++ c))%string.
Proof. induction a as [|x a IH]; [reflexivity|]. rewrite !append_cons, IH. reflexivity. Qed.

Lemma append_empty_r (a : string) : (a ++ "" = a)%string.
Proof. induction a as [|x a IH]; [reflexivity|]. rewrite append_cons, IH. reflexivity. Qed.

Lemma all_chars_app p (a b : string) :
  all_chars p (a ++ b) = all_chars p a && all_chars p b.
Proof.
  induction a as [|x a IH]; [reflexivity|].
  rewrite append_cons. cbn [all_chars]. rewrite IH. apply andb_assoc.
Qed.

Lemma splitlines_from_line cur l rest :
  single_line l = true ->
  Py.splitlines_from cur (l ++ Py.newline ++ rest)
  = (cur ++ l)%string :: Py.splitlines_from "" rest.
Proof.
  revert cur. induction l as [|c l IH]; intros cur Hl.
  - rewrite append_empty_l, append_empty_r. reflexivity.
  - unfold single_line in Hl. cbn [all_chars] in Hl.
    apply andb_true_iff in Hl as [Hc Hl]. apply negb_true_iff in Hc.
    rewrite append_cons. cbn [Py.splitlines_from]. rewrite Hc, IH by exact Hl.
    rewrite append_assoc'. reflexivity.
Qed.

Lemma splitlines_join (ls : list string) :
  ls <> [] ->
  Forall (fun l => single_line l = true) ls ->
  Py.splitlines (Py.join Py.newline ls ++ Py.newline) = ls.
Proof.
  unfold Py.splitlines, Py.join.
  induction ls as [|l ls IH]; intros Hne Hall; [congruence|].
  inversion Hall as [|? ? Hl Hls]; subst.
  destruct ls as [|l2 ls].
  - cbn [String.concat].
    rewrite <- (append_empty_r Py.newline).
    rewrite splitlines_from_line by exact Hl. reflexivity.
  - change (String.concat Py.newline (l :: l2 :: ls))
      with (l ++ Py.newline ++ String.concat Py.newline (l2 :: ls))%string.
    rewrite !append_assoc'. rewrite splitlines_from_line by exact Hl.
    rewrite append_empty_l. f_equal. apply IH; [congruence|exact Hls].
Qed.

Lemma splitlines_from_single_line n :
  forall s cur, (String.length s <= n)%nat ->
  single_line cur = true ->
  Forall (fun l => single_line l = true) (Py.splitlines_from cur s).
Proof.
  induction n as [|n IH]; intros s cur Hlen Hcur.
  - destruct s; [|cbn in Hlen; lia]. cbn. destruct (Py.is_empty cur); auto.
  - destruct s as [|c t]; [cbn; destruct (Py.is_empty cur); auto|].
    cbn [String.length] in Hlen. cbn [Py.splitlines_from].
    destruct (Py.islinebreak c) eqn:Hc.
    + assert (Ht : Forall (fun l => single_line l = true) (cur :: Py.splitlines_from "" t)).
      { constructor; [exact Hcur|]. apply IH; [lia|reflexivity]. }
      destruct (Nat.eq_dec (nat_of_ascii c) 13%nat) as [E|E].
      * rewrite E. destruct t as [|c' t']; [exact Ht|].
        destruct (nat_of_ascii c' =? 10)%nat; [|exact Ht].
        constructor; [exact Hcur|]. apply IH; [cbn [String.length] in Hlen; lia|reflexivity].
      * destruct (nat_of_ascii c) as [|[|[|[|[|[|[|[|[|[|[|[|[|[|k]]]]]]]]]]]]]];
          try exact Ht; try congruence; try (destruct t; exact Ht).
    + apply IH; [lia|].
      unfold single_line in *. rewrite all_chars_app, Hcur. cbn [all_chars].
      rewrite Hc. reflexivity.
Qed.

Lemma splitlines_single_line s :
  Forall (fun l => single_line l = true) (Py.splitlines s).
Proof. apply (splitlines_from_single_line (String.length s)); [lia|reflexivity]. Qed.

Lemma contains_unfold needle hay :
  Py.contains needle hay
  = String.prefix needle hay ||
    match hay with
    | EmptyString => false
    | String _ t => Py.contains needle t
    end.
Proof. destruct hay; reflexivity. Qed.

Lemma prefix_app (n b : string) : String.prefix n (n ++ b) = true.
Proof.
  induction n as [|c n IH]; [destruct b; reflexivity|].
  rewrite append_cons. cbn [String.prefix].
  destruct (ascii_dec c c); [exact IH|congruence].
Qed.

Lemma contains_here (n b : string) : Py.contains n (n ++ b) = true.
Proof. rewrite contains_unfold, prefix_app. reflexivity. Qed.

Lemma contains_app_r (n a b : string) :
  Py.contains n b = true -> Py.contains n (a ++ b) = true.
Proof.
  intros H. induction a as [|c a IH]; [exact H|].
  rewrite append_cons, contains_unfold, IH. apply orb_true_r.
Qed.

Lemma split_from_token cur tok rest :
  no_blank tok = true ->
  Py.split_from cur (tok ++ " " ++ rest)
  = if Py.is_empty (cur ++ tok) then Py.split_from "" rest
    else (cur ++ tok)%string :: Py.split_from "" rest.
Proof.
  revert cur. induction tok as [|c tok IH]; intros cur Ht.
  - rewrite append_empty_l, append_empty_r. reflexivity.
  - unfold no_blank in Ht. cbn [all_chars] in Ht.
    apply andb_true_iff in Ht as [Hc Ht]. apply negb_true_iff in Hc.
    rewrite append_cons. cbn [Py.split_from]. rewrite Hc, IH by exact Ht.
    rewrite append_assoc'. reflexivity.
Qed.

Lemma all_chars_uint p d :
  forallb p digit_chars = true -> all_chars p (NilEmpty.string_of_uint d) = true.
Proof.
  intros Hp. cbn [forallb digit_chars] in Hp.
  repeat (apply andb_true_iff in Hp as [? Hp]).
  induction d; cbn [NilEmpty.string_of_uint all_chars]; rewrite ?IHd, ?andb_true_r; auto.
Qed.

Lemma string_of_uint_nonnil d :
  d <> Decimal.Nil -> NilZero.string_of_uint d = NilEmpty.string_of_uint d.
Proof. destruct d; congruence || reflexivity. Qed.

Lemma all_chars_str_of_int p z :
  forallb p ("-"%char :: digit_chars) = true -> all_chars p (Py.str_of_int z) = true.
Proof.
  intros Hp. cbn [forallb] in Hp. apply andb_true_iff in Hp as [Hm Hp].
  pose proof (all_chars_uint p) as Hu.
  unfold Py.str_of_int. destruct z as [|q|q]; cbn [Z.to_int NilZero.string_of_int].
  - apply (Hu (Decimal.D0 Decimal.Nil) Hp).
  - rewrite string_of_uint_nonnil by apply Unsigned.to_uint_nonnil. apply Hu, Hp.
  - cbn [all_chars]. rewrite Hm.
    rewrite string_of_uint_nonnil by apply Unsigned.to_uint_nonnil. apply Hu, Hp.
Qed.

Lemma str_of_int_nonempty z : Py.is_empty (Py.str_of_int z) = false.
Proof.
  unfold Py.str_of_int. destruct z as [|q|q]; cbn [Z.to_int NilZero.string_of_int];
    try reflexivity.
  rewrite string_of_uint_nonnil by apply Unsigned.to_uint_nonnil.
  pose proof (Unsigned.to_uint_nonnil q) as Hn.
  destruct (Pos.to_uint q); congruence || reflexivity.
Qed.

Lemma lstrip_by_id p s : all_chars (fun c => negb (p c)) s = true -> Py.lstrip_by p s = s.
Proof.
  destruct s as [|c t]; [reflexivity|]. cbn [all_chars Py.lstrip_by]. intros H.
  apply andb_true_iff in H as [Hc _]. apply negb_true_iff in Hc. rewrite Hc. reflexivity.
Qed.

Lemma rstrip_by_id p s : all_chars (fun c => negb (p c)) s = true -> Py.rstrip_by p s = s.
Proof.
  induction s as [|c t IH]; [reflexivity|]. cbn [all_chars Py.rstrip_by]. intros H.
  apply andb_true_iff in H as [Hc Ht]. apply negb_true_iff in Hc.
  rewrite Hc, IH by exact Ht. reflexivity.
Qed.

Lemma digits_from_uint d b :
  d <> Decimal.Nil \/ b = true ->
  Py.digits_from b (NilEmpty.string_of_uint d) = Some d.
Proof.
  revert b. induction d; intros b Hb; cbn [NilEmpty.string_of_uint];
    try (cbn; rewrite IHd by (right; reflexivity); reflexivity).
  destruct Hb as [Hb | ->]; [congruence|reflexivity].
Qed.

Lemma digits_from_head c t d :
  Py.digits_from false (String c t) = Some d ->
  (nat_of_ascii c =? 45)%nat = false /\ (nat_of_ascii c =? 43)%nat = false.
Proof.
  cbn [Py.digits_from]. unfold Py.digit_of.
  destruct (nat_of_ascii c =? 45)%nat eqn:E1.
  - apply Nat.eqb_eq in E1. rewrite E1. cbn. discriminate.
  - destruct (nat_of_ascii c =? 43)%nat eqn:E2; [|auto].
    apply Nat.eqb_eq in E2. rewrite E2. cbn. discriminate.
Qed.

Lemma int_literal (neg : bool) s d :
  all_chars (fun c => negb (Py.isintspace c)) s = true ->
  Py.digits_from false s = Some d ->
  Py.int ((if neg then "-" else "") ++ s)
  = Ok (Z.of_int (if neg then Decimal.Neg d else Decimal.Pos d)).
Proof.
  intros Hs Hd. unfold Py.int.
  assert (Hall : all_chars (fun c => negb (Py.isintspace c))
                   ((if neg then "-" else "") ++ s) = true).
  { rewrite all_chars_app, Hs. destruct neg; reflexivity. }
  rewrite lstrip_by_id, rstrip_by_id by exact Hall.
  destruct neg.
  - rewrite append_cons, append_empty_l.
    replace (nat_of_ascii "-" =? 45)%nat with true by reflexivity.
    rewrite Hd. reflexivity.
  - rewrite append_empty_l. destruct s as [|c t]; [discriminate Hd|].
    destruct (digits_from_head c t d Hd) as [-> ->]. rewrite Hd. reflexivity.
Qed.

Lemma int_uint (neg : bool) d :
  d <> Decimal.Nil ->
  Py.int ((if neg then "-" else "") ++ NilEmpty.string_of_uint d)
  = Ok (Z.of_int (if neg then Decimal.Neg d else Decimal.Pos d)).
Proof.
  intros Hd. apply int_literal.
  - apply all_chars_uint. reflexivity.
  - apply digits_from_uint. left. exact Hd.
Qed.

Lemma int_str_of_int z : Py.int (Py.str_of_int z) = Ok z.
Proof.
  rewrite <- (DecimalZ.of_to z) at 2.
  unfold Py.str_of_int. destruct z as [|q|q]; cbn [Z.to_int NilZero.string_of_int].
  - reflexivity.
  - rewrite string_of_uint_nonnil by apply Unsigned.to_uint_nonnil.
    apply (int_uint false), Unsigned.to_uint_nonnil.
  - rewrite string_of_uint_nonnil by apply Unsigned.to_uint_nonnil.
    apply (int_uint true), Unsigned.to_uint_nonnil.
Qed.

(** ** The rewritten crontab line *)

Lemma cron_entry_fields m s pm ph :
  pre_minute s = JInt pm ->
  pre_hour s = JInt ph ->
  cron_entry m s
  = (Py.str_of_int pm ++ " " ++ Py.str_of_int ph ++ " " ++ entry_command m)%string.
Proof.
  intros Hm Hh. unfold cron_entry, entry_command. rewrite Hm, Hh.
  cbn [PyVal.str_of]. destruct (no_log m); reflexivity.
Qed.

Lemma cron_entry_is_disable_entry m s pm ph :
  pre_minute s = JInt pm ->
  pre_hour s = JInt ph ->
  is_disable_entry m (cron_entry m s) = true.
Proof.
  intros Hm Hh. rewrite (cron_entry_fields m s pm ph Hm Hh).
  unfold is_disable_entry, entry_command. apply andb_true_iff. split.
  - do 7 apply contains_app_r. apply contains_here.
  - do 8 apply contains_app_r. reflexivity.
Qed.

Lemma cron_entry_single_line m s pm ph :
  pre_minute s = JInt pm ->
  pre_hour s = JInt ph ->
  single_line (sys_executable m) = true ->
  single_line (script_path m) = true ->
  single_line (cron_entry m s) = true.
Proof.
  intros Hm Hh He Hp. rewrite (cron_entry_fields m s pm ph Hm Hh).
  unfold single_line, entry_command in *.
  rewrite !all_chars_app, He, Hp.
  rewrite !all_chars_str_of_int by reflexivity.
  destruct (no_log m); reflexivity.
Qed.

Lemma cron_entry_split m s pm ph :
  pre_minute s = JInt pm ->
  pre_hour s = JInt ph ->
  Py.split (cron_entry m s)
  = Py.str_of_int pm :: Py.str_of_int ph :: Py.split (entry_command m).
Proof.
  intros Hm Hh. rewrite (cron_entry_fields m s pm ph Hm Hh). unfold Py.split.
  rewrite split_from_token by (apply all_chars_str_of_int; reflexivity).
  rewrite append_empty_l, str_of_int_nonempty.
  rewrite split_from_token by (apply all_chars_str_of_int; reflexivity).
  rewrite append_empty_l, str_of_int_nonempty. reflexivity.
Qed.

Lemma other_entries_none m lines :
  List.filter (is_disable_entry m) (other_entries m lines) = [].
Proof.
  unfold other_entries, is_disable_entry.
  induction lines as [|l lines IH]; [reflexivity|]. cbn [List.filter].
  destruct (Py.contains (script_path m) l) eqn:E1;
    destruct (Py.contains "disable" l) eqn:E2; cbn [negb orb List.filter];
    rewrite ?E1, ?E2; cbn [andb]; exact IH.
Qed.

Lemma other_entries_single_line m lines :
  Forall (fun l => single_line l = true) lines ->
  Forall (fun l => single_line l = true) (other_entries m lines).
Proof.
  unfold other_entries. induction 1 as [|l lines Hl _ IH]; cbn [List.filter]; [constructor|].
  destruct (_ || _); [constructor|]; assumption.
Qed.

(** The lines of the table [setup_cronjob] installs: the foreign lines of
    the old table followed by the new entry. *)
Lemma rewritten_table_lines m s c pm ph :
  pre_minute s = JInt pm ->
  pre_hour s = JInt ph ->
  single_line (sys_executable m) = true ->
  single_line (script_path m) = true ->
  Py.splitlines (rewritten_table m s c)
  = (other_entries m (Py.splitlines (default "" (table c))) ++ [cron_entry m s])%list.
Proof.
  intros Hm Hh He Hp. unfold rewritten_table. apply splitlines_join.
  - intros H. apply app_eq_nil in H as [_ H]. discriminate.
  - apply Forall_app. split.
    + apply other_entries_single_line, splitlines_single_line.
    + constructor; [|constructor]. eapply cron_entry_single_line; eassumption.
Qed.

(** ** Bringing the crontab line up to date *)

Lemma strip_split_nonempty entry :
  (5 <= length (Py.split entry))%nat -> Py.is_empty entry = false.
Proof. destruct entry; [cbn; lia|reflexivity]. Qed.

Lemma check_and_update_cronjob_out_of_sync m w s entry cm ch :
  schedule_of (fetched w "os/backup/auto-backup") = Ok s ->
  current_entry m (cron w) = Some entry ->
  Py.is_empty entry = false ->
  (5 <=? length (Py.split entry))%nat = true ->
  Py.int (nth 0 (Py.split entry) "") = Ok cm ->
  Py.int (nth 1 (Py.split entry) "") = Ok ch ->
  PyVal.int_ne cm (pre_minute s) || PyVal.int_ne ch (pre_hour s) = true ->
  PyVal.format_02d (pre_minute s) = Ok tt ->
  check_and_update_cronjob m w
  = Run (match result (setup_cronjob m w) with Ok _ => Ok tt | Raise e => Raise e end)
        (after (setup_cronjob m w))
        ([HttpGet (config_url "os/backup/auto-backup")
            (on_get (service w) (config_url "os/backup/auto-backup"));
          CrontabList] ++ events (setup_cronjob m w)).
Proof.
  intros Hs Hcur Hne Hlen Hcm Hch Hsync Hfmt.
  unfold check_and_update_cronjob, bind.
  rewrite get_backup_schedule_run, Hs. cbn [result after events].
  rewrite get_current_cron_entry_run, Hcur. cbn [result after events].
  rewrite Hne, Hlen. cbn beta iota.
  rewrite Hcm, lift_run. cbn [result after events].
  rewrite Hch, lift_run. cbn [result after events].
  rewrite Hsync, Hfmt, lift_run. cbn [result after events].
  destruct (setup_cronjob m w) as [[b|e] w' evs]; cbn [result after events ret];
    rewrite ?app_nil_r; reflexivity.
Qed.

(** C5 (as amended). When the crontab commands work, the first line that
    mentions the script path and 'disable' has at least five fields, its
    first two fields are integer literals and one of them differs from the
    computed pre-backup minute or hour, [check_and_update_cronjob] hands
    exactly one table to [crontab -]; the installed table has exactly one
    line that mentions the script path and 'disable', and the first two
    fields of that line are the computed pre-backup minute and hour. *)
Theorem C5_out_of_sync_entry_rewritten (m : manager) (w : world) (t line : string)
    (s : backup_schedule) (pm ph cm ch : Z) :
  table (cron w) = Some t ->
  list_fails (cron w) = false ->
  install (cron w) = Installs ->
  List.find (is_disable_entry m) (Py.splitlines t) = Some line ->
  (5 <= length (Py.split (Py.strip line)))%nat ->
  Py.int (nth 0 (Py.split (Py.strip line)) "") = Ok cm ->
  Py.int (nth 1 (Py.split (Py.strip line)) "") = Ok ch ->
  schedule_of (fetched w "os/backup/auto-backup") = Ok s ->
  pre_minute s = JInt pm ->
  pre_hour s = JInt ph ->
  cm <> pm \/ ch <> ph ->
  single_line (sys_executable m) = true ->
  single_line (script_path m) = true ->
  let r := check_and_update_cronjob m w in
  result r = Ok tt /\
  installs (events r) = [CrontabInstall (rewritten_table m s (cron w))] /\
  table (cron (after r)) = Some (rewritten_table m s (cron w)) /\
  List.filter (is_disable_entry m) (Py.splitlines (rewritten_table m s (cron w)))
  = [cron_entry m s] /\
  (exists rest, Py.split (cron_entry m s)
                = Py.str_of_int pm :: Py.str_of_int ph :: rest) /\
  Py.int (Py.str_of_int pm) = Ok pm /\
  Py.int (Py.str_of_int ph) = Ok ph.
Proof.
  intros Ht Hl Hi Hfind Hlen Hcm Hch Hs Hpm Hph Hne He Hp r.
  assert (Hcur : current_entry m (cron w) = Some (Py.strip line)).
  { unfold current_entry. rewrite Hl, Ht, Hfind. reflexivity. }
  assert (Hsync : PyVal.int_ne cm (pre_minute s) || PyVal.int_ne ch (pre_hour s) = true).
  { rewrite Hpm, Hph. cbn [PyVal.int_ne]. apply orb_true_iff.
    destruct Hne as [Hne|Hne]; [left|right]; apply negb_true_iff, Z.eqb_neq, Hne. }
  assert (Hfmt : PyVal.format_02d (pre_minute s) = Ok tt) by (rewrite Hpm; reflexivity).
  apply Nat.leb_le in Hlen as Hlen'.
  pose proof (check_and_update_cronjob_out_of_sync m w s (Py.strip line) cm ch
                Hs Hcur (strip_split_nonempty _ Hlen) Hlen' Hcm Hch Hsync Hfmt) as Hrun.
  rewrite setup_cronjob_run, Hs, Hl, Hi in Hrun. cbv zeta in Hrun.
  cbn [result after events app] in Hrun.
  unfold r. rewrite Hrun. cbn [result after events].
  split; [reflexivity|]. split; [reflexivity|].
  split; [reflexivity|]. split; [|split; [|split]].
  - rewrite (rewritten_table_lines m s (cron w) pm ph Hpm Hph He Hp).
    rewrite List.filter_app, other_entries_none. cbn [List.filter app].
    rewrite (cron_entry_is_disable_entry m s pm ph Hpm Hph). reflexivity.
  - rewrite (cron_entry_split m s pm ph Hpm Hph). eauto.
  - apply int_str_of_int.
  - apply int_str_of_int.
Qed.

End Manager.

(** * Instances *)

Lemma health_payload_wf l : health_wf (health_payload l).
Proof.
  right. eexists. split; [reflexivity|]. right. eexists. split; [reflexivity|].
  right. exists l. reflexivity.
Defined.

(** C1, as stated, fails on a payload that lists the identifier twice:
    after [disable_check] it still occurs twice, after [enable_check] once. *)
Lemma C1_counterexample :
  ~ (forall c p q,
       health_wf c -> disable_payload c = Ok p -> enable_payload c = Ok q ->
       occurrences (ignore_checks_of p) = 1%nat /\
       occurrences (ignore_checks_of q) = 0%nat).
Proof.
  intros H.
  assert (Hd : disable_payload dup_payload = Ok dup_payload) by (vm_compute; reflexivity).
  assert (He : enable_payload dup_payload = Ok (health_payload [JStr check_name]))
    by (vm_compute; reflexivity).
  destruct (H _ _ _ (health_payload_wf _) Hd He) as [H1 _].
  vm_compute in H1. discriminate.
Qed.

Lemma C1_witness :
  let c := health_payload [JStr "fmos.health.checks.basic.DiskCheck"; JStr check_name] in
  health_wf c /\
  exists p q,
    disable_payload c = Ok p /\ enable_payload c = Ok q /\
    occurrences (ignore_checks_of p) = 1%nat /\
    occurrences (ignore_checks_of q) = 0%nat.
Proof.
  intros c. split; [apply health_payload_wf|].
  destruct (C1_ignore_list_counts sample_b64decode sample_repr c (health_payload_wf _))
    as (p & q & Hp & Hq & _ & _ & _ & _ & _ & Hle).
  exists p, q. split; [exact Hp|]. split; [exact Hq|].
  assert (Hn : (occurrences (ignore_checks_of c) <= 1)%nat) by (vm_compute; lia).
  destruct (Hle Hn) as (H1 & H0 & _). split; assumption.
Defined.

Lemma C2_witness :
  exists ph pm,
    result (get_backup_schedule (midnight_world None))
    = Ok (BackupSchedule (JInt 0) (JInt 3) (JInt ph) (JInt pm) (JStr "daily")) /\
    ph = 23 /\ pm = 58.
Proof.
  destruct (C2_pre_backup_time (midnight_world None)
              {[ "auto_backup" := JObj (<["hour" := JInt 0]> {[ "minute" := JInt 3 ]}) ]}
              (<["hour" := JInt 0]> {[ "minute" := JInt 3 ]}) 0 3)
    as (ph & pm & Hr & Hpm & Hph & _); try reflexivity; try lia.
  exists ph, pm. split; [exact Hr|]. split; [exact Hph|exact Hpm].
Defined.

Lemma C4_witness :
  after (check_and_update_cronjob sample_repr sample_manager (midnight_world (Some foreign_crontab)))
  = midnight_world (Some foreign_crontab) /\
  installs (events (check_and_update_cronjob sample_repr sample_manager
                      (midnight_world (Some foreign_crontab)))) = [].
Proof.
  apply (C4_no_entry_no_write sample_repr sample_manager (midnight_world (Some foreign_crontab))).
  intros t Ht. injection Ht as <-. vm_compute. repeat constructor.
Defined.

(** C3, as stated, fails for [cleanup]: the PUT that clears the post-backup
    configuration is refused and the APPLY is sent all the same. *)
Lemma C3_counterexample :
  ~ (forall m w,
       paired short_circuit (events (cleanup sample_b64decode sample_repr m w)) = true).
Proof.
  intros H. specialize (H sample_manager (refusing_world None)).
  vm_compute in H. discriminate.
Qed.

(** C5, as stated, fails on an entry with a schedule nickname: its first
    two fields differ from the computed minute and hour, and nothing is
    rewritten. *)
Lemma C5_counterexample :
  let w := midnight_world (Some nickname_crontab) in
  let r := check_and_update_cronjob sample_repr sample_manager w in
  List.find (is_disable_entry sample_manager) (Py.splitlines nickname_crontab)
  = Some "@daily /usr/bin/python3 /home/admin/manage_loadavg_check.py disable" /\
  Py.split "@daily /usr/bin/python3 /home/admin/manage_loadavg_check.py disable"
  = ["@daily"; "/usr/bin/python3"; "/home/admin/manage_loadavg_check.py"; "disable"] /\
  result (get_backup_schedule w)
  = Ok (BackupSchedule (JInt 0) (JInt 3) (JInt 23) (JInt 58) (JStr "daily")) /\
  installs (events r) = [] /\
  table (cron (after r)) = Some nickname_crontab.
Proof. vm_compute. repeat split. Qed.

Lemma C5_witness :
  let w := midnight_world (Some stale_crontab) in
  let r := check_and_update_cronjob sample_repr sample_manager w in
  exists t,
    installs (events r) = [CrontabInstall t] /\
    table (cron (after r)) = Some t /\
    List.filter (is_disable_entry sample_manager) (Py.splitlines t)
    = ["58 23 * * * /usr/bin/python3 /home/admin/manage_loadavg_check.py disable >/dev/null 2>&1"].
Proof.
  intros w r.
  destruct (C5_out_of_sync_entry_rewritten sample_repr sample_manager w stale_crontab
              "50 23 * * * /usr/bin/python3 /home/admin/manage_loadavg_check.py disable >/dev/null 2>&1"
              (BackupSchedule (JInt 0) (JInt 3) (JInt 23) (JInt 58) (JStr "daily"))
              58 23 50 23)
    as (_ & Hi & Ht & Hf & _); try reflexivity.
  - vm_compute. lia.
  - left. lia.
  - eexists. split; [exact Hi|]. split; [exact Ht|]. rewrite Hf. reflexivity.
Defined.

Lemma C6_witness :
  result (get_backup_schedule (refusing_world None))
  = Ok (BackupSchedule (JInt 23) (JInt 48) (JInt 23) (JInt 43) (JStr "daily")).
Proof.
  destruct (C6_schedule_defaults (refusing_world None)) as (_ & H & _).
  apply H. reflexivity.
Defined.

Lemma C7_witness :
  let w := midnight_world None in
  let p := JObj {[ "health" := JObj ∅ ]} in
  In (HttpPut (config_url "os/health") p (Response true "" None))
     (events (enable_check sample_b64decode sample_repr sample_manager w)) /\
  obj_lookup (health_of p) "ignore_checks" = None.
Proof.
  intros w p.
  assert (Hin : In (HttpPut (config_url "os/health") p (Response true "" None))
                  (events (enable_check sample_b64decode sample_repr sample_manager w))).
  { vm_compute. do 3 right. left. reflexivity. }
  split; [exact Hin|].
  destruct (C7_empty_list_pruned sample_b64decode sample_repr sample_manager w _ _ _
              (health_payload_wf _) Hin) as [_ H].
  exact H.
Defined.

(** C9: Ctrl-C during the lookup of the crontab entry; [disable] carries on,
    writes the health configuration and exits with 0, where [cleanup] exits
    with 130. *)
Lemma C9_witness :
  let w := interrupted_lookup in
  crontab_l w = Run (Raise KeyboardInterrupt) w [CrontabList] /\
  main sample_b64encode sample_b64decode sample_repr (sample_invocation CmdDisable) w = 0 /\
  In (HttpPut (config_url "os/health") (health_payload [JStr check_name])
        (Response true "" None))
     (events (main_run sample_b64encode sample_b64decode sample_repr
                (sample_invocation CmdDisable) w)) /\
  main sample_b64encode sample_b64decode sample_repr (sample_invocation CmdCleanup) w = 130.
Proof.
  intros w.
  destruct (C9_interrupt_lost_in_cron_lookup sample_b64encode sample_b64decode sample_repr
              (sample_invocation CmdDisable) w eq_refl eq_refl eq_refl)
    as (Hl & _ & _ & Hc).
  split; [exact Hl|]. split; [vm_compute; reflexivity|].
  split; [vm_compute; do 3 right; left; reflexivity|].
  apply Hc. reflexivity.
Defined.

(** C10, as stated, fails on a payload without a ['health'] mapping:
    [enable_check] PUTs it back with an empty ['health'] mapping added, a
    difference that is not in the ['ignore_checks'] entry. *)
Lemma C10_counterexample :
  let w := sample_world bare_payload (backup_payload 0 3) true None in
  let p := JObj (<["health" := JObj ∅]> {[ "notify" := JStr "ops@example.org" ]}) in
  fetched w "os/health" = bare_payload /\
  In (HttpPut (config_url "os/health") p (Response true "" None))
     (events (enable_check sample_b64decode sample_repr sample_manager w)) /\
  obj_lookup bare_payload "health" = None /\
  obj_lookup p "health" = Some (JObj ∅) /\
  sans_ignore_checks p <> sans_ignore_checks bare_payload.
Proof.
  intros w p. split; [vm_compute; reflexivity|].
  split; [vm_compute; do 3 right; left; reflexivity|].
  split; [vm_compute; reflexivity|]. split; [vm_compute; reflexivity|].
  intros H. apply (f_equal (fun j => obj_lookup j "health")) in H.
  vm_compute in H. discriminate H.
Qed.

Lemma C10_witness :
  let c := rich_payload [JStr "fmos.health.checks.basic.DiskCheck"] in
  let w := sample_world c (backup_payload 0 3) true None in
  let p := rich_payload [JStr "fmos.health.checks.basic.DiskCheck"; JStr check_name] in
  In (HttpPut (config_url "os/health") p (Response true "" None))
     (events (disable_check sample_b64decode sample_repr sample_manager w)) /\
  obj_lookup p "notify" = Some (JStr "ops@example.org") /\
  obj_lookup (health_of p) "interval" = Some (JInt 60) /\
  sans_ignore_checks p = sans_ignore_checks c.
Proof.
  intros c w p.
  assert (Hin : In (HttpPut (config_url "os/health") p (Response true "" None))
                  (events (disable_check sample_b64decode sample_repr sample_manager w))).
  { vm_compute. do 3 right. left. reflexivity. }
  split; [exact Hin|].
  destruct (C10_other_keys_pass_through sample_b64decode sample_repr sample_manager w _ _ _
              (or_introl Hin)) as (_ & Htop & Hhealth & _ & Hsame).
  split; [rewrite Htop by discriminate; reflexivity|].
  split; [rewrite Hhealth by discriminate; reflexivity|].
  apply (Hsame (<["interval" := JInt 60]>
                  {[ "ignore_checks" := JList [JStr "fmos.health.checks.basic.DiskCheck"] ]})).
  reflexivity.
Defined.

(** The three exit codes are all reached. *)
Example exit_code_success :
  main sample_b64encode sample_b64decode sample_repr
    (Invocation CmdDisable false true "/home/admin/manage_loadavg_check.py"
       "/usr/bin/python3" "admin")
    (midnight_world None) = 0.
Proof. vm_compute. reflexivity. Qed.

Example exit_code_failure :
  main sample_b64encode sample_b64decode sample_repr
    (Invocation CmdDisable false true "/home/admin/manage_loadavg_check.py"
       "/usr/bin/python3" "admin")
    (refusing_world None) = 1.
Proof. vm_compute. reflexivity. Qed.

Example exit_code_interrupt :
  main sample_b64encode sample_b64decode sample_repr
    (Invocation CmdCredentials false true "/home/admin/manage_loadavg_check.py"
       "/usr/bin/python3" "admin")
    (with_tty [Typed "admin"; CtrlC] (midnight_world None)) = 130.
Proof. vm_compute. reflexivity. Qed.
